(** * Resource detection provider

    A shallow embedding of package [internal] of the resource detection
    processor (processor/resourcedetectionprocessor/internal/resourcedetection.go):
    the detector registry, the run-once resource provider, and the merge and
    flatten helpers, followed by the properties proved about them.

    Conventions.
    - Go values of the collector's [pdata] package, of [context], [zap] and
      [fmt] are modelled in modules of the same name; only what the package
      calls is modelled.
    - Code that mutates an object in place ([MergeResource] on its target, the
      methods of [*ResourceProvider]) returns the new state of that object.
    - Detectors and detector constructors are arbitrary functions on an
      abstract [World]; every call made to one is recorded on a trace so that
      "how often" and "never" can be stated. *)

Set Warnings "-register-all".
From Stdlib Require Import ZArith Floats.PrimFloat.
From stdpp Require Import gmap strings list fin_maps.

Open Scope string_scope.
Open Scope list_scope.

(** A proof depends on the section variables of its statement only. *)
Set Default Proof Using "Type".

(** ** Go errors *)

(** An [error] value as [fmt.Errorf] builds it: a message, and with the [%w]
    verb the wrapped cause as well. Errors returned by detectors are of one of
    these two shapes too. The nil error is [None]. *)
Inductive GoError : Type :=
| errorString (s : string)
| wrapError (msg : string) (err : GoError).

Definition error : Type := option GoError.

(** The [Error()] method. *)
Definition Error (e : GoError) : string :=
  match e with
  | errorString s => s
  | wrapError msg _ => msg
  end.

(** The [Unwrap()] method. *)
Definition Unwrap (e : GoError) : error :=
  match e with
  | errorString _ => None
  | wrapError _ err => Some err
  end.

(** A call that returns [(value, error)] and whose caller reads the value only
    when the error is nil. *)
Inductive result (A : Type) : Type :=
| Ok (a : A)
| Err (e : GoError).
Arguments Ok {A} a.
Arguments Err {A} e.

(** ** pdata: attribute values, attribute maps, resources *)

Module pdata.

(** [AttributeValue] is a tagged union. [AttributeValueNULL] is the type of
    a value that was never set. *)
Inductive AttributeValue : Type :=
| AttributeValueNULL
| AttributeValueSTRING (StringVal : string)
| AttributeValueINT (IntVal : Z)
| AttributeValueDOUBLE (DoubleVal : float)
| AttributeValueBOOL (BoolVal : bool)
| AttributeValueMAP (MapVal : list (string * AttributeValue))
| AttributeValueARRAY (ArrayVal : list AttributeValue).

(** [AttributeMap] wraps a slice of key/value pairs: [Range] walks it in
    slice order, [Get] returns the first pair with the key. *)
Definition AttributeMap : Type := list (string * AttributeValue).
Definition AnyValueArray : Type := list AttributeValue.

Definition Len (am : AttributeMap) : nat := length am.

Fixpoint Get (k : string) (am : AttributeMap) : option AttributeValue :=
  match am with
  | [] => None
  | (k', v) :: rest => if decide (k' = k) then Some v else Get k rest
  end.

(** [Insert] adds the pair only when the key is absent. *)
Definition Insert (k : string) (v : AttributeValue) (am : AttributeMap) : AttributeMap :=
  match Get k am with
  | Some _ => am
  | None => am ++ [(k, v)]
  end.

(** [Upsert] overwrites the value of the pair [Get] finds, and appends the
    pair when there is none. *)
Fixpoint Upsert (k : string) (v : AttributeValue) (am : AttributeMap) : AttributeMap :=
  match am with
  | [] => [(k, v)]
  | (k', v') :: rest =>
      if decide (k' = k) then (k', v) :: rest else (k', v') :: Upsert k v rest
  end.

(** [am.Range(f)]: [f] is called on every pair in order until it returns
    false. The callback closes over state it mutates; here it receives that
    state and returns it. *)
Section Range.
Context {S : Type} (f : string -> AttributeValue -> S -> S * bool).

Fixpoint Range (am : AttributeMap) (s : S) : S :=
  match am with
  | [] => s
  | kv :: rest =>
      let '(s', continue) := f (fst kv) (snd kv) s in
      if continue then Range rest s' else s'
  end.
End Range.

Record Resource : Type := { Attributes : AttributeMap }.

Definition NewResource : Resource := {| Attributes := [] |}.

Definition keys (am : AttributeMap) : list string := map fst am.

End pdata.

(** ** Plain values

    What [interface{}] holds in the output of [AttributesToMap]: nil, a bool,
    an int64, a float64, a string, a [[]interface{}] or a
    [map[string]interface{}]. A nil slice and an empty slice are both
    [PlainSlice []]. *)
Inductive Plain : Type :=
| PlainNil
| PlainBool (b : bool)
| PlainInt64 (n : Z)
| PlainFloat64 (f : float)
| PlainString (s : string)
| PlainSlice (l : list Plain)
| PlainMap (m : gmap string Plain).

(** ** Merge and flatten helpers *)

Section Flatten.
(** The three flatten functions are mutually recursive; the two that walk a
    container are written over the function they call on each element. *)
Variable UnwrapAttribute : pdata.AttributeValue -> Plain.

Definition AttributesToMap_body (am : pdata.AttributeMap) : gmap string Plain :=
  let mp : gmap string Plain := ∅ in
  pdata.Range (fun k v mp => (<[k := UnwrapAttribute v]> mp, true)) am mp.

Definition getSerializableArray_body (inArr : pdata.AnyValueArray) : list Plain :=
  let outArr : list Plain := [] in
  fold_left (fun outArr v => outArr ++ [UnwrapAttribute v]) inArr outArr.
End Flatten.

Fixpoint UnwrapAttribute (v : pdata.AttributeValue) : Plain :=
  match v with
  | pdata.AttributeValueBOOL b => PlainBool b
  | pdata.AttributeValueINT n => PlainInt64 n
  | pdata.AttributeValueDOUBLE d => PlainFloat64 d
  | pdata.AttributeValueSTRING s => PlainString s
  | pdata.AttributeValueARRAY arr => PlainSlice (getSerializableArray_body UnwrapAttribute arr)
  | pdata.AttributeValueMAP m => PlainMap (AttributesToMap_body UnwrapAttribute m)
  | _ => PlainNil
  end.

Definition AttributesToMap (am : pdata.AttributeMap) : gmap string Plain :=
  AttributesToMap_body UnwrapAttribute am.

Definition getSerializableArray (inArr : pdata.AnyValueArray) : list Plain :=
  getSerializableArray_body UnwrapAttribute inArr.

Definition IsEmptyResource (res : pdata.Resource) : bool :=
  Nat.eqb (pdata.Len (pdata.Attributes res)) 0.

(** [MergeResource(to, from, overrideTo)] mutates [to]; the result is [to]
    after the call. *)
Definition MergeResource (to from : pdata.Resource) (overrideTo : bool) : pdata.Resource :=
  if IsEmptyResource from then to
  else
    let toAttr := pdata.Attributes to in
    {| pdata.Attributes :=
         pdata.Range
           (fun k v toAttr =>
              (if overrideTo then pdata.Upsert k v toAttr else pdata.Insert k v toAttr, true))
           (pdata.Attributes from) toAttr |}.

(** Names for the two loops, as the lemmas about them use them. *)

(** The attributes of the target after the loop of [MergeResource]. *)
Definition merged (overrideTo : bool) (from toAttr : pdata.AttributeMap) : pdata.AttributeMap :=
  pdata.Range
    (fun k v toAttr =>
       (if overrideTo then pdata.Upsert k v toAttr else pdata.Insert k v toAttr, true))
    from toAttr.

(** One step of the loop of [MergeResource]. *)
Definition merge_step (overrideTo : bool) (k : string) (v : pdata.AttributeValue)
    (toAttr : pdata.AttributeMap) : pdata.AttributeMap :=
  if overrideTo then pdata.Upsert k v toAttr else pdata.Insert k v toAttr.

(** The Go map after the callback of [AttributesToMap] ran over [am],
    starting from [mp]. *)
Definition filled (am : pdata.AttributeMap) (mp : gmap string Plain) : gmap string Plain :=
  pdata.Range (fun k v mp => (<[k := UnwrapAttribute v]> mp, true)) am mp.

(** ** context, zap, component *)

Module time.
(** [time.Duration] and instants of the wall clock, in nanoseconds. *)
Definition Duration : Type := Z.
Definition Time : Type := Z.
End time.

Module context.
(** A context is reduced to its deadline ([None]: no deadline). *)
Record Context : Type := { Deadline : option time.Time }.

Definition Background : Context := {| Deadline := None |}.

(** [WithDeadline(parent, d)]: the parent's deadline is kept when it is the
    earlier one. *)
Definition WithDeadline (parent : Context) (d : time.Time) : Context :=
  match Deadline parent with
  | Some cur => if (cur <? d)%Z then parent else {| Deadline := Some d |}
  | None => {| Deadline := Some d |}
  end.

(** [WithTimeout(parent, timeout)] is [WithDeadline(parent, now + timeout)];
    [now] is the reading of [time.Now()]. *)
Definition WithTimeout (now : time.Time) (parent : Context) (timeout : time.Duration) : Context :=
  WithDeadline parent (now + timeout)%Z.
End context.

Module zap.
(** A logger is identified by the name of its sink. *)
Definition Logger : Type := string.
End zap.

Module component.
Record ProcessorCreateParams : Type := { Logger : zap.Logger }.
End component.

Definition DetectorType : Type := string.

(** ** The registry and the provider *)

Section Provider.

(** The environment detectors and their constructors read and change, and
    the wall clock [time.Now()] reads from it. *)
Variable World : Type.
Variable clock : World -> time.Time.

(** [DetectorConfig] is [interface{}]: an opaque value. *)
Variable DetectorConfig : Type.

(** [strconv.Quote], which the [%q] verb of [fmt.Errorf] applies. *)
Variable Quote : string -> string.

(** What the program does to the outside, in order: the lines it logs, and
    the calls it makes to detector constructors and to detectors. *)
Inductive Event : Type :=
| EvInfo (logger : zap.Logger) (msg : string) (fields : list (string * Plain))
| EvCreate (detectorType : DetectorType)
| EvDetect (detector : string) (ctx : context.Context).

Record Env : Type := { world : World; trace : list Event }.

Definition emit (ev : Event) (e : Env) : Env :=
  {| world := world e; trace := trace e ++ [ev] |}.

(** [logger.Info(msg, fields...)] *)
Definition Info (logger : zap.Logger) (msg : string) (fields : list (string * Plain))
    (e : Env) : Env :=
  emit (EvInfo logger msg fields) e.

(** An implementation of the [Detector] interface. [detectorName] tells the
    implementations apart on the trace; the code never reads it. *)
Record Detector : Type := {
  detectorName : string;
  Detect : context.Context -> World -> result pdata.Resource * World
}.

Definition ResourceDetectorConfig : Type := DetectorType -> DetectorConfig.
Definition GetConfigFromType (c : ResourceDetectorConfig) (t : DetectorType) : DetectorConfig :=
  c t.

Definition DetectorFactory : Type :=
  component.ProcessorCreateParams -> DetectorConfig -> World -> result Detector * World.

(** [detector.Detect(ctx)], recorded. *)
Definition callDetect (detector : Detector) (ctx : context.Context) (e : Env)
    : result pdata.Resource * Env :=
  let '(r, w) := Detect detector ctx (world e) in
  (r, {| world := w; trace := trace e ++ [EvDetect (detectorName detector) ctx] |}).

(** [detectorFactory(params, cfg)] for the factory registered under
    [detectorType], recorded. *)
Definition callFactory (detectorType : DetectorType) (detectorFactory : DetectorFactory)
    (params : component.ProcessorCreateParams) (cfg : DetectorConfig) (e : Env)
    : result Detector * Env :=
  let '(r, w) := detectorFactory params cfg (world e) in
  (r, {| world := w; trace := trace e ++ [EvCreate detectorType] |}).

Record ResourceProviderFactory : Type := {
  f_detectors : gmap DetectorType DetectorFactory
}.

Definition NewProviderFactory (detectors : gmap DetectorType DetectorFactory)
    : ResourceProviderFactory :=
  {| f_detectors := detectors |}.

(** [resource] is [None] while the field holds the zero [pdata.Resource],
    which refers to no resource at all. *)
Record resourceResult : Type := {
  resource : option pdata.Resource;
  err : error
}.

(** [p_once] is the state of the [sync.Once]: whether [Do] has run its
    function. [p_detectedResource] is a pointer, nil ([None]) at first. *)
Record ResourceProvider : Type := {
  p_logger : zap.Logger;
  p_timeout : time.Duration;
  p_detectors : list Detector;
  p_detectedResource : option resourceResult;
  p_once : bool
}.

Definition NewResourceProvider (logger : zap.Logger) (timeout : time.Duration)
    (detectors : list Detector) : ResourceProvider :=
  {| p_logger := logger;
     p_timeout := timeout;
     p_detectors := detectors;
     p_detectedResource := None;
     p_once := false |}.

(** The loop of [getDetectors]; [detectors] is the slice built so far. *)
Fixpoint getDetectors_loop (f : ResourceProviderFactory)
    (params : component.ProcessorCreateParams) (detectorConfigs : ResourceDetectorConfig)
    (detectorTypes : list DetectorType) (detectors : list Detector) (e : Env)
    : result (list Detector) * Env :=
  match detectorTypes with
  | [] => (Ok detectors, e)
  | detectorType :: rest =>
      match f_detectors f !! detectorType with
      | None => (Err (errorString ("invalid detector key: " +:+ detectorType)), e)
      | Some detectorFactory =>
          let '(r, e1) :=
            callFactory detectorType detectorFactory params
              (GetConfigFromType detectorConfigs detectorType) e in
          match r with
          | Err err =>
              (Err (wrapError ("failed creating detector type " +:+ Quote detectorType
                                 +:+ ": " +:+ Error err) err), e1)
          | Ok detector =>
              getDetectors_loop f params detectorConfigs rest (detectors ++ [detector]) e1
          end
      end
  end.

Definition getDetectors (f : ResourceProviderFactory)
    (params : component.ProcessorCreateParams) (detectorConfigs : ResourceDetectorConfig)
    (detectorTypes : list DetectorType) (e : Env) : result (list Detector) * Env :=
  getDetectors_loop f params detectorConfigs detectorTypes [] e.

Definition CreateResourceProvider (f : ResourceProviderFactory)
    (params : component.ProcessorCreateParams) (timeout : time.Duration)
    (detectorConfigs : ResourceDetectorConfig) (detectorTypes : list DetectorType)
    (e : Env) : result ResourceProvider * Env :=
  let '(r, e1) := getDetectors f params detectorConfigs detectorTypes e in
  match r with
  | Err err => (Err err, e1)
  | Ok detectors =>
      let provider := NewResourceProvider (component.Logger params) timeout detectors in
      (Ok provider, e1)
  end.

(** The loop of [detectResource]; [res] is the resource merged so far. *)
Fixpoint detectResource_loop (ctx : context.Context) (detectors : list Detector)
    (res : pdata.Resource) (e : Env) : result pdata.Resource * Env :=
  match detectors with
  | [] => (Ok res, e)
  | detector :: rest =>
      let '(r, e1) := callDetect detector ctx e in
      match r with
      | Err err => (Err err, e1)
      | Ok r => detectResource_loop ctx rest (MergeResource res r false) e1
      end
  end.

(** [p.detectedResource = rr] *)
Definition set_detectedResource (p : ResourceProvider) (rr : resourceResult)
    : ResourceProvider :=
  {| p_logger := p_logger p;
     p_timeout := p_timeout p;
     p_detectors := p_detectors p;
     p_detectedResource := Some rr;
     p_once := p_once p |}.

(** [p.detectedResource.err = err] and [p.detectedResource.resource = res];
    the pointer is not nil where [detectResource] assigns through it. *)
Definition set_err (p : ResourceProvider) (err' : GoError) : ResourceProvider :=
  match p_detectedResource p with
  | Some rr => set_detectedResource p {| resource := resource rr; err := Some err' |}
  | None => p
  end.

Definition set_resource (p : ResourceProvider) (res : pdata.Resource) : ResourceProvider :=
  match p_detectedResource p with
  | Some rr => set_detectedResource p {| resource := Some res; err := err rr |}
  | None => p
  end.

(** The [sync.Once] has run its function. *)
Definition set_once (p : ResourceProvider) : ResourceProvider :=
  {| p_logger := p_logger p;
     p_timeout := p_timeout p;
     p_detectors := p_detectors p;
     p_detectedResource := p_detectedResource p;
     p_once := true |}.

Definition detectResource (ctx : context.Context) (p : ResourceProvider) (e : Env)
    : ResourceProvider * Env :=
  let p := set_detectedResource p {| resource := None; err := None |} in
  let res := pdata.NewResource in
  let e := Info (p_logger p) "began detecting resource information" [] e in
  match detectResource_loop ctx (p_detectors p) res e with
  | (Err err, e) => (set_err p err, e)
  | (Ok res, e) =>
      let e := Info (p_logger p) "detected resource information"
                 [("resource", PlainMap (AttributesToMap (pdata.Attributes res)))] e in
      (set_resource p res, e)
  end.

(** [p.Get(ctx)]. [None] is the panic of reading through a nil
    [p.detectedResource]. *)
Definition Get (ctx : context.Context) (p : ResourceProvider) (e : Env)
    : option (option pdata.Resource * error) * ResourceProvider * Env :=
  let '(p, e) :=
    if p_once p then (p, e)
    else
      let ctx := context.WithTimeout (clock (world e)) ctx (p_timeout p) in
      let '(p, e) := detectResource ctx p e in
      (set_once p, e) in
  match p_detectedResource p with
  | None => (None, p, e)
  | Some detected => (Some (resource detected, err detected), p, e)
  end.

(** Calls of [Get] one after the other, one per context of the list. *)
Fixpoint Gets (ctxs : list context.Context) (p : ResourceProvider) (e : Env)
    : list (option (option pdata.Resource * error)) * ResourceProvider * Env :=
  match ctxs with
  | [] => ([], p, e)
  | ctx :: rest =>
      let '(r, p, e) := Get ctx p e in
      let '(rs, p, e) := Gets rest p e in
      (r :: rs, p, e)
  end.

(** ** Detectors and constructors used in examples *)

(** A detector whose [Detect] returns [r] whatever the context, and changes
    the world by [step]. *)
Definition fixedDetector (name : string) (step : World -> World) (r : result pdata.Resource)
    : Detector :=
  {| detectorName := name; Detect := fun _ w => (r, step w) |}.

(** A constructor that returns [r] and changes the world by [step]. *)
Definition fixedFactory (step : World -> World) (r : result Detector) : DetectorFactory :=
  fun _ _ w => (r, step w).

(** The resource with the given integer attributes, in order. *)
Definition intResource (kvs : list (string * Z)) : pdata.Resource :=
  {| pdata.Attributes := map (fun kv => (fst kv, pdata.AttributeValueINT (snd kv))) kvs |}.

(** The [Detect] calls on a trace, in order. *)
Fixpoint detectCalls (tr : list Event) : list (string * context.Context) :=
  match tr with
  | [] => []
  | EvDetect name ctx :: rest => (name, ctx) :: detectCalls rest
  | _ :: rest => detectCalls rest
  end.

(** The detector types whose constructor was called on a trace, in order. *)
Fixpoint createCalls (tr : list Event) : list DetectorType :=
  match tr with
  | [] => []
  | EvCreate t :: rest => t :: createCalls rest
  | _ :: rest => createCalls rest
  end.

(** ** Reference runs

    What the detectors, and the constructors, yield when called in order as
    long as each succeeds, without the provider or the registry around them;
    the theorems on the loops are stated against these. *)

(** The resources the detectors return from world [w] on, and the world they
    leave; [None] when one of them fails. *)
Fixpoint detectAll (ctx : context.Context) (ds : list Detector) (w : World)
    : option (list pdata.Resource * World) :=
  match ds with
  | [] => Some ([], w)
  | d :: rest =>
      match Detect d ctx w with
      | (Ok r, w1) =>
          match detectAll ctx rest w1 with
          | Some (rs, w2) => Some (r :: rs, w2)
          | None => None
          end
      | (Err _, _) => None
      end
  end.

(** The detectors the registered constructors of [types] return from world
    [w] on, and the world they leave; [None] when a type is not registered or
    a constructor fails. *)
Fixpoint constructAll (f : ResourceProviderFactory) (params : component.ProcessorCreateParams)
    (cfgs : ResourceDetectorConfig) (types : list DetectorType) (w : World)
    : option (list Detector * World) :=
  match types with
  | [] => Some ([], w)
  | t :: rest =>
      match f_detectors f !! t with
      | None => None
      | Some factory =>
          match factory params (GetConfigFromType cfgs t) w with
          | (Ok d, w1) =>
              match constructAll f params cfgs rest w1 with
              | Some (ds, w2) => Some (d :: ds, w2)
              | None => None
              end
          | (Err _, _) => None
          end
      end
  end.

(** The value of the first resource of the list that has the key. *)
Fixpoint firstOf (k : string) (rs : list pdata.Resource) : option pdata.AttributeValue :=
  match rs with
  | [] => None
  | r :: rest =>
      match pdata.Get k (pdata.Attributes r) with
      | Some v => Some v
      | None => firstOf k rest
      end
  end.

(** The accumulated resource after the merges of a run. *)
Definition mergeAll (rs : list pdata.Resource) (res : pdata.Resource) : pdata.Resource :=
  fold_left (fun acc r => MergeResource acc r false) rs res.

(** The lines logged on a trace, in order. *)
Fixpoint infoLines (tr : list Event) : list (zap.Logger * string * list (string * Plain)) :=
  match tr with
  | [] => []
  | EvInfo logger msg fields :: rest => (logger, msg, fields) :: infoLines rest
  | _ :: rest => infoLines rest
  end.

(** * Properties *)

(** ** Attribute maps *)

Lemma Get_app (k : string) (a b : pdata.AttributeMap) :
  pdata.Get k (a ++ b) = match pdata.Get k a with Some v => Some v | None => pdata.Get k b end.
Proof.
  induction a as [|[k' v'] a IH]; simpl; [reflexivity|].
  destruct (decide (k' = k)); [reflexivity | exact IH].
Qed.

Lemma Get_None (k : string) (am : pdata.AttributeMap) :
  pdata.Get k am = None <-> k ∉ pdata.keys am.
Proof.
  induction am as [|[k' v'] am IH]; simpl.
  - split; [intros _; apply not_elem_of_nil | reflexivity].
  - rewrite not_elem_of_cons. destruct (decide (k' = k)) as [->|Hne].
    + split; [discriminate | intros [Hk _]; congruence].
    + rewrite IH. split; [intros H; split; [congruence | exact H] | intros [_ H]; exact H].
Qed.

Lemma Get_Some_elem (k : string) (v : pdata.AttributeValue) (am : pdata.AttributeMap) :
  pdata.Get k am = Some v -> (k, v) ∈ am.
Proof.
  induction am as [|[k' v'] am IH]; simpl; [discriminate|].
  destruct (decide (k' = k)) as [->|Hne].
  - intros [= ->]. apply list_elem_of_here.
  - intros H. apply list_elem_of_further, IH, H.
Qed.

Lemma elem_keys (k : string) (v : pdata.AttributeValue) (am : pdata.AttributeMap) :
  (k, v) ∈ am -> k ∈ pdata.keys am.
Proof. intros H. unfold pdata.keys. apply (list_elem_of_fmap_2 fst) in H. exact H. Qed.

Lemma elem_Get_NoDup (k : string) (v : pdata.AttributeValue) (am : pdata.AttributeMap) :
  NoDup (pdata.keys am) -> (k, v) ∈ am -> pdata.Get k am = Some v.
Proof.
  induction am as [|[k' v'] am IH]; simpl; intros Hnd Hin.
  - apply elem_of_nil in Hin. contradiction.
  - apply NoDup_cons in Hnd as [Hk' Hnd]. apply elem_of_cons in Hin as [Heq|Hin].
    + injection Heq as -> ->. destruct (decide (k' = k')); [reflexivity | contradiction].
    + destruct (decide (k' = k)) as [->|Hne]; [|apply IH; assumption].
      exfalso. apply Hk'. eapply elem_keys, Hin.
Qed.

Lemma Get_Insert (k k' : string) (v : pdata.AttributeValue) (am : pdata.AttributeMap) :
  pdata.Get k' (pdata.Insert k v am) =
    match pdata.Get k' am with
    | Some x => Some x
    | None => if decide (k = k') then Some v else None
    end.
Proof.
  unfold pdata.Insert. destruct (pdata.Get k am) eqn:Hk.
  - destruct (pdata.Get k' am) eqn:Hk'; [reflexivity|].
    destruct (decide (k = k')); [congruence | reflexivity].
  - rewrite Get_app. simpl. reflexivity.
Qed.

Lemma Get_Upsert (k k' : string) (v : pdata.AttributeValue) (am : pdata.AttributeMap) :
  pdata.Get k' (pdata.Upsert k v am) = if decide (k = k') then Some v else pdata.Get k' am.
Proof.
  induction am as [|[k1 v1] am IH]; simpl.
  - reflexivity.
  - destruct (decide (k1 = k)) as [->|Hne]; simpl.
    + destruct (decide (k = k')); reflexivity.
    + destruct (decide (k1 = k')) as [->|Hne'].
      * destruct (decide (k = k')); [congruence | reflexivity].
      * exact IH.
Qed.

Lemma elem_Insert (x : string * pdata.AttributeValue) (k : string) (v : pdata.AttributeValue)
    (am : pdata.AttributeMap) :
  x ∈ am -> x ∈ pdata.Insert k v am.
Proof.
  unfold pdata.Insert. destruct (pdata.Get k am); [intros H; exact H|].
  intros H. apply elem_of_app. left. exact H.
Qed.

Lemma elem_Upsert (k k' : string) (v v' : pdata.AttributeValue) (am : pdata.AttributeMap) :
  k <> k' -> (k, v) ∈ am -> (k, v) ∈ pdata.Upsert k' v' am.
Proof.
  intros Hne. induction am as [|[k1 v1] am IH]; simpl; intros Hin.
  - apply elem_of_nil in Hin. contradiction.
  - apply elem_of_cons in Hin as [Heq|Hin].
    + injection Heq as <- <-. destruct (decide (k = k')); [contradiction|].
      apply list_elem_of_here.
    + destruct (decide (k1 = k')); apply list_elem_of_further; [exact Hin | apply IH, Hin].
Qed.

Lemma merged_cons (overrideTo : bool) (k : string) (v : pdata.AttributeValue)
    (from toAttr : pdata.AttributeMap) :
  merged overrideTo ((k, v) :: from) toAttr =
    merged overrideTo from
      (if overrideTo then pdata.Upsert k v toAttr else pdata.Insert k v toAttr).
Proof. reflexivity. Qed.

Lemma MergeResource_Attributes (to from : pdata.Resource) (overrideTo : bool) :
  pdata.Attributes (MergeResource to from overrideTo) =
    merged overrideTo (pdata.Attributes from) (pdata.Attributes to).
Proof. destruct from as [[|kv from]]; reflexivity. Qed.

Lemma Get_merged_insert (k : string) (from toAttr : pdata.AttributeMap) :
  pdata.Get k (merged false from toAttr) =
    match pdata.Get k toAttr with Some v => Some v | None => pdata.Get k from end.
Proof.
  revert toAttr. induction from as [|[k1 v1] from IH]; intros toAttr.
  - simpl. destruct (pdata.Get k toAttr); reflexivity.
  - rewrite merged_cons, IH, Get_Insert. simpl.
    destruct (pdata.Get k toAttr); [reflexivity|].
    destruct (decide (k1 = k)); reflexivity.
Qed.

Lemma Get_merged_frame (overrideTo : bool) (k : string) (from toAttr : pdata.AttributeMap) :
  k ∉ pdata.keys from -> pdata.Get k (merged overrideTo from toAttr) = pdata.Get k toAttr.
Proof.
  revert toAttr. induction from as [|[k1 v1] from IH]; intros toAttr Hk; [reflexivity|].
  simpl in Hk. apply not_elem_of_cons in Hk as [Hne Hk].
  rewrite merged_cons, IH by exact Hk. destruct overrideTo.
  - rewrite Get_Upsert. destruct (decide (k1 = k)); congruence.
  - rewrite Get_Insert. destruct (pdata.Get k toAttr); [reflexivity|].
    destruct (decide (k1 = k)); congruence.
Qed.

Lemma Get_merged_upsert (k : string) (v : pdata.AttributeValue) (from toAttr : pdata.AttributeMap) :
  NoDup (pdata.keys from) -> pdata.Get k from = Some v ->
  pdata.Get k (merged true from toAttr) = Some v.
Proof.
  revert toAttr. induction from as [|[k1 v1] from IH]; intros toAttr Hnd Hk; [discriminate|].
  simpl in Hnd, Hk. apply NoDup_cons in Hnd as [Hk1 Hnd]. rewrite merged_cons.
  destruct (decide (k1 = k)) as [->|Hne].
  - injection Hk as ->. rewrite Get_merged_frame by exact Hk1.
    rewrite Get_Upsert. destruct (decide (k = k)); [reflexivity | contradiction].
  - apply IH; assumption.
Qed.

(** The lookups after an overriding merge: the last pair the source has for a
    key wins, and a key the source lacks keeps the target's value. *)
Lemma Get_merged_upsert_last (k : string) (from toAttr : pdata.AttributeMap) :
  pdata.Get k (merged true from toAttr) =
    match pdata.Get k (reverse from) with Some v => Some v | None => pdata.Get k toAttr end.
Proof.
  revert toAttr. induction from as [|[k1 v1] from IH]; intros toAttr; [reflexivity|].
  rewrite merged_cons, IH, reverse_cons, Get_app, Get_Upsert. simpl.
  destruct (pdata.Get k (reverse from)); [reflexivity|].
  destruct (decide (k1 = k)); reflexivity.
Qed.

Lemma elem_merged (overrideTo : bool) (k : string) (v : pdata.AttributeValue)
    (from toAttr : pdata.AttributeMap) :
  k ∉ pdata.keys from -> (k, v) ∈ toAttr -> (k, v) ∈ merged overrideTo from toAttr.
Proof.
  revert toAttr. induction from as [|[k1 v1] from IH]; intros toAttr Hk Hin; [exact Hin|].
  simpl in Hk. apply not_elem_of_cons in Hk as [Hne Hk].
  rewrite merged_cons. apply IH; [exact Hk|]. destruct overrideTo.
  - apply elem_Upsert; assumption.
  - apply elem_Insert; assumption.
Qed.

Lemma keys_merged (overrideTo : bool) (k : string) (from toAttr : pdata.AttributeMap) :
  k ∈ pdata.keys toAttr -> k ∈ pdata.keys (merged overrideTo from toAttr).
Proof.
  revert toAttr. induction from as [|[k1 v1] from IH]; intros toAttr Hk; [exact Hk|].
  rewrite merged_cons. apply IH. destruct overrideTo.
  - destruct (pdata.Get k (pdata.Upsert k1 v1 toAttr)) eqn:HG.
    + eapply elem_keys, Get_Some_elem, HG.
    + rewrite Get_Upsert in HG. destruct (decide (k1 = k)); [discriminate|].
      apply Get_None in HG. contradiction.
  - destruct (pdata.Get k (pdata.Insert k1 v1 toAttr)) eqn:HG.
    + eapply elem_keys, Get_Some_elem, HG.
    + rewrite Get_Insert in HG. destruct (pdata.Get k toAttr) eqn:HG'; [discriminate|].
      apply Get_None in HG'. contradiction.
Qed.

(** ** Flattening *)

Lemma fold_left_snoc_map {A B : Type} (g : A -> B) (l : list A) (acc : list B) :
  fold_left (fun out x => out ++ [g x]) l acc = acc ++ map g l.
Proof.
  revert acc. induction l as [|x l IH]; intros acc; simpl.
  - symmetry. apply app_nil_r.
  - rewrite IH, <- app_assoc. reflexivity.
Qed.

Lemma getSerializableArray_map (inArr : pdata.AnyValueArray) :
  getSerializableArray inArr = map UnwrapAttribute inArr.
Proof.
  unfold getSerializableArray, getSerializableArray_body.
  exact (fold_left_snoc_map UnwrapAttribute inArr []).
Qed.

Lemma filled_frame (k : string) (am : pdata.AttributeMap) (mp : gmap string Plain) :
  k ∉ pdata.keys am -> filled am mp !! k = mp !! k.
Proof.
  revert mp. induction am as [|[k1 v1] am IH]; intros mp Hk; [reflexivity|].
  simpl in Hk. apply not_elem_of_cons in Hk as [Hne Hk].
  change (filled am (<[k1 := UnwrapAttribute v1]> mp) !! k = mp !! k).
  rewrite IH by exact Hk. apply lookup_insert_ne. congruence.
Qed.

Lemma filled_lookup (k : string) (v : pdata.AttributeValue) (am : pdata.AttributeMap)
    (mp : gmap string Plain) :
  NoDup (pdata.keys am) -> pdata.Get k am = Some v ->
  filled am mp !! k = Some (UnwrapAttribute v).
Proof.
  revert mp. induction am as [|[k1 v1] am IH]; intros mp Hnd HG; [discriminate|].
  simpl in Hnd, HG. apply NoDup_cons in Hnd as [Hk1 Hnd].
  change (filled am (<[k1 := UnwrapAttribute v1]> mp) !! k = Some (UnwrapAttribute v)).
  destruct (decide (k1 = k)) as [->|Hne].
  - injection HG as ->. rewrite filled_frame by exact Hk1. apply lookup_insert_eq.
  - apply IH; assumption.
Qed.

Lemma filled_last (k : string) (am : pdata.AttributeMap) (mp : gmap string Plain) :
  filled am mp !! k =
    match pdata.Get k (reverse am) with
    | Some v => Some (UnwrapAttribute v)
    | None => mp !! k
    end.
Proof.
  revert mp. induction am as [|[k1 v1] am IH]; intros mp; [reflexivity|].
  change (filled ((k1, v1) :: am) mp) with (filled am (<[k1 := UnwrapAttribute v1]> mp)).
  rewrite IH, reverse_cons, Get_app, lookup_insert. simpl.
  destruct (pdata.Get k (reverse am)); [reflexivity|].
  destruct (decide (k1 = k)); reflexivity.
Qed.

Lemma filled_is_Some (k : string) (am : pdata.AttributeMap) (mp : gmap string Plain) :
  is_Some (filled am mp !! k) <-> k ∈ pdata.keys am \/ is_Some (mp !! k).
Proof.
  revert mp. induction am as [|[k1 v1] am IH]; intros mp.
  - simpl. split; [intros H; right; exact H | intros [H|H]; [|exact H]].
    apply elem_of_nil in H. contradiction.
  - change (is_Some (filled am (<[k1 := UnwrapAttribute v1]> mp) !! k)
            <-> k ∈ k1 :: pdata.keys am \/ is_Some (mp !! k)).
    rewrite IH, elem_of_cons, lookup_insert. destruct (decide (k1 = k)) as [->|Hne].
    + split; [intros _; left; left; reflexivity | intros _; right; eexists; reflexivity].
    + split; [intros [H|H]; [left; right; exact H | right; exact H]|].
      intros [[H|H]|H]; [congruence | left; exact H | right; exact H].
Qed.

(** C7: flattening an attribute map yields a plain map with an entry for
    exactly the attribute keys; the entry of a key is the flattened value the
    map has for the key (of the last pair, should the key occur twice); a
    bool, an int, a double and a string flatten to the same scalar, an array
    to the list of its flattened elements, a nested map to its flattened plain
    map, and a value of no listed type to nil. *)
Theorem AttributesToMap_flattens (am : pdata.AttributeMap) :
  (forall k, is_Some (AttributesToMap am !! k) <-> k ∈ pdata.keys am)
  /\ (NoDup (pdata.keys am) ->
      forall k v, pdata.Get k am = Some v ->
                  AttributesToMap am !! k = Some (UnwrapAttribute v))
  /\ (forall k, AttributesToMap am !! k = UnwrapAttribute <$> pdata.Get k (reverse am))
  /\ (forall b, UnwrapAttribute (pdata.AttributeValueBOOL b) = PlainBool b)
  /\ (forall n, UnwrapAttribute (pdata.AttributeValueINT n) = PlainInt64 n)
  /\ (forall d, UnwrapAttribute (pdata.AttributeValueDOUBLE d) = PlainFloat64 d)
  /\ (forall s, UnwrapAttribute (pdata.AttributeValueSTRING s) = PlainString s)
  /\ (forall arr, UnwrapAttribute (pdata.AttributeValueARRAY arr)
                  = PlainSlice (map UnwrapAttribute arr))
  /\ (forall m, UnwrapAttribute (pdata.AttributeValueMAP m) = PlainMap (AttributesToMap m))
  /\ UnwrapAttribute pdata.AttributeValueNULL = PlainNil.
Proof.
  change (AttributesToMap am) with (filled am ∅).
  split.
  { intros k. rewrite filled_is_Some, lookup_empty.
    split; [intros [H|H]; [exact H|] | intros H; left; exact H].
    destruct H as [x Hx]. discriminate. }
  split; [intros Hnd k v HG; exact (filled_lookup k v am ∅ Hnd HG)|].
  split.
  { intros k. rewrite filled_last, lookup_empty.
    destruct (pdata.Get k (reverse am)); reflexivity. }
  repeat split; try reflexivity.
  intros arr. change (UnwrapAttribute (pdata.AttributeValueARRAY arr))
    with (PlainSlice (getSerializableArray arr)).
  rewrite getSerializableArray_map. reflexivity.
Qed.

(** ** Merging *)

(** C5: with [overrideTo] set, after the merge the target holds, for every key
    of the source, the source's value (the last one written, should the source
    have the key twice), and keeps its own value for the other keys; merging
    {a:2, b:2} into {a:1} leaves the target {a:2, b:2}. *)
Theorem MergeResource_override (to from : pdata.Resource) :
  (NoDup (pdata.keys (pdata.Attributes from)) ->
   forall k v, pdata.Get k (pdata.Attributes from) = Some v ->
               pdata.Get k (pdata.Attributes (MergeResource to from true)) = Some v)
  /\ (forall k, pdata.Get k (pdata.Attributes (MergeResource to from true))
                = match pdata.Get k (reverse (pdata.Attributes from)) with
                  | Some v => Some v
                  | None => pdata.Get k (pdata.Attributes to)
                  end)
  /\ MergeResource (intResource [("a", 1%Z)]) (intResource [("a", 2%Z); ("b", 2%Z)]) true
     = intResource [("a", 2%Z); ("b", 2%Z)].
Proof.
  rewrite MergeResource_Attributes. split; [|split; [|reflexivity]].
  - intros Hnd k v HG. apply Get_merged_upsert; assumption.
  - intros k. apply Get_merged_upsert_last.
Qed.

(** C6: merging a source with zero attributes leaves the target as it was,
    whatever the flag; [IsEmptyResource] is true exactly for the resources
    with zero attributes. *)
Theorem MergeResource_empty_source (to from : pdata.Resource) (overrideTo : bool) :
  (pdata.Len (pdata.Attributes from) = 0%nat -> MergeResource to from overrideTo = to)
  /\ (IsEmptyResource from = true <-> pdata.Len (pdata.Attributes from) = 0%nat).
Proof.
  split.
  - intros Hlen. unfold MergeResource, IsEmptyResource. rewrite Hlen. reflexivity.
  - unfold IsEmptyResource. apply Nat.eqb_eq.
Qed.

(** C10: whatever the flag, a key absent from the source keeps its value in
    the target, every pair of the target under such a key is still there, and
    no key of the target disappears. *)
Theorem MergeResource_frame (to from : pdata.Resource) (overrideTo : bool) (k : string) :
  (k ∉ pdata.keys (pdata.Attributes from) ->
     pdata.Get k (pdata.Attributes (MergeResource to from overrideTo))
       = pdata.Get k (pdata.Attributes to)
     /\ forall v, (k, v) ∈ pdata.Attributes to ->
                  (k, v) ∈ pdata.Attributes (MergeResource to from overrideTo))
  /\ (k ∈ pdata.keys (pdata.Attributes to) ->
        k ∈ pdata.keys (pdata.Attributes (MergeResource to from overrideTo))).
Proof.
  rewrite MergeResource_Attributes. split.
  - intros Hk. split; [apply Get_merged_frame, Hk | intros v; apply elem_merged, Hk].
  - apply keys_merged.
Qed.

(** ** The detection loop *)

Lemma detectCalls_app (a b : list Event) :
  detectCalls (a ++ b) = detectCalls a ++ detectCalls b.
Proof.
  induction a as [|ev a IH]; simpl; [reflexivity|].
  destruct ev; simpl; rewrite IH; reflexivity.
Qed.

Lemma createCalls_app (a b : list Event) :
  createCalls (a ++ b) = createCalls a ++ createCalls b.
Proof.
  induction a as [|ev a IH]; simpl; [reflexivity|].
  destruct ev; simpl; rewrite IH; reflexivity.
Qed.

Lemma detectResource_loop_Ok (ctx : context.Context) (d : Detector) (ds : list Detector)
    (res r : pdata.Resource) (e : Env) (w : World) :
  Detect d ctx (world e) = (Ok r, w) ->
  detectResource_loop ctx (d :: ds) res e =
    detectResource_loop ctx ds (MergeResource res r false)
      {| world := w; trace := trace e ++ [EvDetect (detectorName d) ctx] |}.
Proof. intros H. simpl. unfold callDetect. rewrite H. reflexivity. Qed.

Lemma detectResource_loop_Err (ctx : context.Context) (d : Detector) (ds : list Detector)
    (res : pdata.Resource) (er : GoError) (e : Env) (w : World) :
  Detect d ctx (world e) = (Err er, w) ->
  detectResource_loop ctx (d :: ds) res e =
    (Err er, {| world := w; trace := trace e ++ [EvDetect (detectorName d) ctx] |}).
Proof. intros H. simpl. unfold callDetect. rewrite H. reflexivity. Qed.

(** One run of the loop calls a prefix of the detectors, each once and in
    order, and all of them when it succeeds. *)
Lemma detectResource_loop_calls (ctx : context.Context) (ds : list Detector)
    (res : pdata.Resource) (e : Env) :
  exists k : nat,
    (k <= length ds)%nat
    /\ detectCalls (trace (snd (detectResource_loop ctx ds res e)))
       = detectCalls (trace e) ++ map (fun d => (detectorName d, ctx)) (take k ds)
    /\ (forall r, fst (detectResource_loop ctx ds res e) = Ok r -> k = length ds).
Proof.
  revert res e. induction ds as [|d ds IH]; intros res e.
  - exists 0%nat. simpl. rewrite app_nil_r. split; [lia|]. split; [reflexivity|]. reflexivity.
  - destruct (Detect d ctx (world e)) as [[r|er] w] eqn:HD.
    + rewrite (detectResource_loop_Ok _ _ _ _ _ _ _ HD).
      destruct (IH (MergeResource res r false)
                  {| world := w; trace := trace e ++ [EvDetect (detectorName d) ctx] |})
        as (k & Hk & Hcalls & Hok).
      exists (S k). split; [simpl; lia|]. split.
      * rewrite Hcalls. simpl. rewrite detectCalls_app, <- app_assoc. reflexivity.
      * intros r' Hr'. simpl. f_equal. eapply Hok, Hr'.
    + rewrite (detectResource_loop_Err _ _ _ _ _ _ _ HD).
      exists 1%nat. split; [simpl; lia|]. split.
      * simpl. rewrite detectCalls_app. reflexivity.
      * simpl. discriminate.
Qed.

(** The attributes after a run in which every detector succeeded: a key holds
    the value of the first resource that has it, counting the resource the
    loop started from. *)
Lemma detectResource_loop_first (ctx : context.Context) (ds : list Detector)
    (res out : pdata.Resource) (e e' : Env) (k : string) :
  detectResource_loop ctx ds res e = (Ok out, e') ->
  forall v, pdata.Get k (pdata.Attributes res) = Some v ->
            pdata.Get k (pdata.Attributes out) = Some v.
Proof.
  revert res e. induction ds as [|d ds IH]; intros res e Hrun v Hv.
  - simpl in Hrun. injection Hrun as <- _. exact Hv.
  - destruct (Detect d ctx (world e)) as [[r|er] w] eqn:HD.
    + rewrite (detectResource_loop_Ok _ _ _ _ _ _ _ HD) in Hrun.
      eapply IH; [exact Hrun|].
      rewrite MergeResource_Attributes, Get_merged_insert, Hv. reflexivity.
    + rewrite (detectResource_loop_Err _ _ _ _ _ _ _ HD) in Hrun. discriminate.
Qed.

(** ** Get *)

(** The context [Get] hands to the run has a deadline, at most the timeout
    away from the reading of the clock and no later than the caller's. *)
Lemma WithTimeout_bounded (now : time.Time) (parent : context.Context)
    (timeout : time.Duration) :
  exists d : time.Time,
    context.Deadline (context.WithTimeout now parent timeout) = Some d
    /\ (d <= now + timeout)%Z
    /\ (forall cur, context.Deadline parent = Some cur -> (d <= cur)%Z).
Proof.
  unfold context.WithTimeout, context.WithDeadline.
  destruct (context.Deadline parent) as [cur|] eqn:Hcur.
  - destruct (Z.ltb_spec cur (now + timeout)%Z) as [Hlt|Hge].
    + exists cur. rewrite Hcur. split; [reflexivity|]. split; [lia|].
      intros cur' [= <-]. lia.
    + eexists. split; [reflexivity|]. split; [lia|]. intros cur' [= <-]. exact Hge.
  - eexists. split; [reflexivity|]. split; [lia|]. intros cur' [=].
Qed.


(** [detectResource] by the outcome of its loop. *)
Lemma detectResource_outcome (ctx : context.Context) (p : ResourceProvider) (e : Env) :
  detectResource ctx p e =
    match detectResource_loop ctx (p_detectors p) pdata.NewResource
            (Info (p_logger p) "began detecting resource information" [] e) with
    | (Err er, e1) => (set_detectedResource p {| resource := None; err := Some er |}, e1)
    | (Ok res, e1) =>
        (set_detectedResource p {| resource := Some res; err := None |},
         Info (p_logger p) "detected resource information"
           [("resource", PlainMap (AttributesToMap (pdata.Attributes res)))] e1)
    end.
Proof.
  unfold detectResource. cbn [set_detectedResource p_detectors p_logger].
  destruct (detectResource_loop ctx (p_detectors p) pdata.NewResource
              (Info (p_logger p) "began detecting resource information" [] e))
    as [[res|er] e1]; reflexivity.
Qed.

Lemma detectResource_fields (ctx : context.Context) (p : ResourceProvider) (e : Env) :
  exists rr : resourceResult,
    fst (detectResource ctx p e) = set_detectedResource p rr
    /\ ((exists res, rr = {| resource := Some res; err := None |})
        \/ (exists er, rr = {| resource := None; err := Some er |})).
Proof.
  rewrite detectResource_outcome.
  destruct (detectResource_loop ctx (p_detectors p) pdata.NewResource
              (Info (p_logger p) "began detecting resource information" [] e))
    as [[res|er] e1]; eexists; (split; [reflexivity|]); [left | right]; eexists; reflexivity.
Qed.

Lemma Get_done (ctx : context.Context) (p : ResourceProvider) (e : Env) (rr : resourceResult) :
  p_once p = true -> p_detectedResource p = Some rr ->
  Get ctx p e = (Some (resource rr, err rr), p, e).
Proof. intros Ho Hd. unfold Get. rewrite Ho, Hd. reflexivity. Qed.

Lemma Gets_done (ctxs : list context.Context) (p : ResourceProvider) (e : Env)
    (rr : resourceResult) :
  p_once p = true -> p_detectedResource p = Some rr ->
  Gets ctxs p e = (repeat (Some (resource rr, err rr)) (length ctxs), p, e).
Proof.
  intros Ho Hd. induction ctxs as [|ctx ctxs IH]; simpl; [reflexivity|].
  rewrite (Get_done ctx p e rr Ho Hd), IH. reflexivity.
Qed.

Lemma Get_first (ctx : context.Context) (p p1 : ResourceProvider) (e e1 : Env)
    (rr : resourceResult) :
  p_once p = false ->
  detectResource (context.WithTimeout (clock (world e)) ctx (p_timeout p)) p e = (p1, e1) ->
  p1 = set_detectedResource p rr ->
  Get ctx p e = (Some (resource rr, err rr), set_once p1, e1).
Proof. intros Ho Hrun ->. unfold Get. rewrite Ho, Hrun. reflexivity. Qed.

Lemma detectResource_calls (ctx : context.Context) (p : ResourceProvider) (e : Env) :
  exists k : nat,
    (k <= length (p_detectors p))%nat
    /\ detectCalls (trace (snd (detectResource ctx p e)))
       = detectCalls (trace e) ++ map (fun d => (detectorName d, ctx)) (take k (p_detectors p)).
Proof.
  rewrite detectResource_outcome.
  destruct (detectResource_loop_calls ctx (p_detectors p) pdata.NewResource
              (Info (p_logger p) "began detecting resource information" [] e))
    as (k & Hk & Hcalls & _).
  exists k. split; [exact Hk|]. revert Hcalls.
  destruct (detectResource_loop ctx (p_detectors p) pdata.NewResource
              (Info (p_logger p) "began detecting resource information" [] e))
    as [[res|er] e1]; cbn [fst snd Info emit trace]; rewrite detectCalls_app; intros Hcalls.
  - rewrite detectCalls_app, Hcalls. simpl. rewrite !app_nil_r. reflexivity.
  - rewrite Hcalls. simpl. rewrite app_nil_r. reflexivity.
Qed.

(** C1: on a new provider the first [Get] runs [detectResource] once, under
    the context bounded by the provider's timeout, and returns what that run
    recorded: a resource and no error, or an error and no resource. That run
    calls a prefix of the detectors, each once and in order. Every later [Get]
    returns the same pair and changes neither the provider, nor the world, nor
    the trace: after any number of calls the state is the one the single run
    left. *)
Theorem Get_runs_once (logger : zap.Logger) (timeout : time.Duration)
    (detectors : list Detector) (ctx : context.Context) (ctxs : list context.Context)
    (e : Env) :
  let p := NewResourceProvider logger timeout detectors in
  let ctx' := context.WithTimeout (clock (world e)) ctx timeout in
  exists (r : option pdata.Resource * error) (p1 : ResourceProvider) (e1 : Env),
    detectResource ctx' p e = (p1, e1)
    /\ Get ctx p e = (Some r, set_once p1, e1)
    /\ Gets (ctx :: ctxs) p e = (repeat (Some r) (S (length ctxs)), set_once p1, e1)
    /\ (forall ctx2, Get ctx2 (set_once p1) e1 = (Some r, set_once p1, e1))
    /\ p_detectedResource (set_once p1) = Some {| resource := fst r; err := snd r |}
    /\ ((exists res, r = (Some res, None)) \/ (exists er, r = (None, Some er)))
    /\ (exists k : nat,
          (k <= length detectors)%nat
          /\ detectCalls (trace e1)
             = detectCalls (trace e) ++ map (fun d => (detectorName d, ctx')) (take k detectors)).
Proof.
  intros p ctx'.
  destruct (detectResource ctx' p e) as [p1 e1] eqn:Hrun.
  destruct (detectResource_fields ctx' p e) as (rr & Hp1 & Hshape).
  rewrite Hrun in Hp1. simpl in Hp1.
  assert (Hget : Get ctx p e = (Some (resource rr, err rr), set_once p1, e1)).
  { apply Get_first; [reflexivity | exact Hrun | exact Hp1]. }
  assert (Hcached : p_detectedResource (set_once p1) = Some rr) by (rewrite Hp1; reflexivity).
  exists (resource rr, err rr), p1, e1.
  split; [reflexivity|]. split; [exact Hget|]. split.
  { simpl Gets. rewrite Hget.
    rewrite (Gets_done ctxs (set_once p1) e1 rr eq_refl Hcached). reflexivity. }
  split; [intros ctx2; apply Get_done; [reflexivity | exact Hcached]|].
  split; [rewrite Hcached; destruct rr; reflexivity|].
  split.
  { destruct Hshape as [[res ->]|[er ->]]; [left | right]; eexists; reflexivity. }
  destruct (detectResource_calls ctx' p e) as (k & Hk & Hcalls).
  rewrite Hrun in Hcalls. exists k. split; [exact Hk | exact Hcalls].
Qed.

(** C2: with detectors D1, D2, D3 where D1 succeeds and D2 returns an error,
    [Get] returns that error and no resource, the run calls D1 and D2 and
    nothing else (the world is the one D2 left), and every later [Get] returns
    the same error and no resource without calling anything. *)
Theorem Get_aborts_on_failure (logger : zap.Logger) (timeout : time.Duration)
    (D1 D2 D3 : Detector) (ctx : context.Context) (ctxs : list context.Context) (e : Env)
    (r1 : pdata.Resource) (er : GoError) (w1 w2 : World) :
  let ctx' := context.WithTimeout (clock (world e)) ctx timeout in
  let e1 :=
    {| world := w2;
       trace := trace e ++ [EvInfo logger "began detecting resource information" [];
                            EvDetect (detectorName D1) ctx';
                            EvDetect (detectorName D2) ctx'] |} in
  Detect D1 ctx' (world e) = (Ok r1, w1) ->
  Detect D2 ctx' w1 = (Err er, w2) ->
  exists p1 : ResourceProvider,
    Get ctx (NewResourceProvider logger timeout [D1; D2; D3]) e = (Some (None, Some er), p1, e1)
    /\ p_detectedResource p1 = Some {| resource := None; err := Some er |}
    /\ Gets ctxs p1 e1 = (repeat (Some (None, Some er)) (length ctxs), p1, e1)
    /\ detectCalls (trace e1)
       = detectCalls (trace e) ++ [(detectorName D1, ctx'); (detectorName D2, ctx')].
Proof.
  intros ctx' e1 H1 H2.
  set (p := NewResourceProvider logger timeout [D1; D2; D3]).
  assert (Hrun : detectResource ctx' p e
                 = (set_detectedResource p {| resource := None; err := Some er |}, e1)).
  { rewrite detectResource_outcome. cbn [p_detectors p_logger p NewResourceProvider].
    rewrite (detectResource_loop_Ok ctx' D1 _ _ r1
               (Info logger "began detecting resource information" [] e) w1 H1).
    rewrite (detectResource_loop_Err ctx' D2 _ _ er
               {| world := w1; trace := _ |} w2 H2).
    unfold e1. cbn [trace Info emit]. rewrite <- !app_assoc. reflexivity. }
  exists (set_once (set_detectedResource p {| resource := None; err := Some er |})).
  split; [exact (Get_first ctx p _ e e1 _ eq_refl Hrun eq_refl)|].
  split; [reflexivity|].
  split; [apply (Gets_done ctxs _ e1 {| resource := None; err := Some er |}); reflexivity|].
  unfold e1. cbn [trace]. rewrite detectCalls_app. reflexivity.
Qed.

(** C3: with D1 producing {a:1} and then D2 producing {a:2, b:2}, [Get]
    returns exactly {a:1, b:2}. In general a merge step of the run keeps the
    value of every key the accumulated resource has and takes from the
    detector's resource the keys it lacks, so a value once in the accumulated
    resource is the value in the result of the run. *)
Theorem Get_insert_only_merge (logger : zap.Logger) (timeout : time.Duration)
    (D1 D2 : Detector) (ctx : context.Context) (e : Env) (w1 w2 : World) :
  let ctx' := context.WithTimeout (clock (world e)) ctx timeout in
  Detect D1 ctx' (world e) = (Ok (intResource [("a", 1%Z)]), w1) ->
  Detect D2 ctx' w1 = (Ok (intResource [("a", 2%Z); ("b", 2%Z)]), w2) ->
  fst (fst (Get ctx (NewResourceProvider logger timeout [D1; D2]) e))
    = Some (Some (intResource [("a", 1%Z); ("b", 2%Z)]), None)
  /\ (forall (res r : pdata.Resource) (k : string),
        pdata.Get k (pdata.Attributes (MergeResource res r false))
        = match pdata.Get k (pdata.Attributes res) with
          | Some v => Some v
          | None => pdata.Get k (pdata.Attributes r)
          end)
  /\ (forall (ds : list Detector) (res out : pdata.Resource) (e0 e' : Env) (k : string)
             (v : pdata.AttributeValue),
        detectResource_loop ctx' ds res e0 = (Ok out, e') ->
        pdata.Get k (pdata.Attributes res) = Some v ->
        pdata.Get k (pdata.Attributes out) = Some v).
Proof.
  intros ctx' H1 H2. split; [|split].
  - set (p := NewResourceProvider logger timeout [D1; D2]).
    set (rr := {| resource := Some (intResource [("a", 1%Z); ("b", 2%Z)]); err := None |}).
    assert (Hrun : fst (detectResource ctx' p e) = set_detectedResource p rr).
    { rewrite detectResource_outcome. cbn [p_detectors p_logger p NewResourceProvider].
      rewrite (detectResource_loop_Ok ctx' D1 _ _ _
                 (Info logger "began detecting resource information" [] e) w1 H1).
      rewrite (detectResource_loop_Ok ctx' D2 _ _ _ {| world := w1; trace := _ |} w2 H2).
      reflexivity. }
    destruct (detectResource ctx' p e) as [p1 e1] eqn:Hdet.
    rewrite (Get_first ctx p p1 e e1 rr eq_refl Hdet Hrun). reflexivity.
  - intros res r k. rewrite MergeResource_Attributes. apply Get_merged_insert.
  - intros ds res out e0 e' k v Hrun Hv. eapply detectResource_loop_first; eassumption.
Qed.

(** C9: a provider with no detectors succeeds on the first [Get] with the
    resource of zero attributes and a nil error, without touching the world;
    that result is what every later [Get] returns. *)
Theorem Get_no_detectors (logger : zap.Logger) (timeout : time.Duration)
    (ctx : context.Context) (ctxs : list context.Context) (e : Env) :
  exists (p1 : ResourceProvider) (e1 : Env),
    Get ctx (NewResourceProvider logger timeout []) e
      = (Some (Some pdata.NewResource, None), p1, e1)
    /\ pdata.Len (pdata.Attributes pdata.NewResource) = 0%nat
    /\ p_detectedResource p1 = Some {| resource := Some pdata.NewResource; err := None |}
    /\ world e1 = world e
    /\ Gets ctxs p1 e1 = (repeat (Some (Some pdata.NewResource, None)) (length ctxs), p1, e1).
Proof.
  eexists. eexists. split; [reflexivity|]. split; [reflexivity|]. split; [reflexivity|].
  split; [reflexivity|].
  apply (Gets_done ctxs _ _ {| resource := Some pdata.NewResource; err := None |});
    reflexivity.
Qed.

(** ** The registry *)

Lemma getDetectors_loop_unknown (f : ResourceProviderFactory)
    (params : component.ProcessorCreateParams) (cfgs : ResourceDetectorConfig)
    (t : DetectorType) (rest : list DetectorType) (ds : list Detector) (e : Env) :
  f_detectors f !! t = None ->
  getDetectors_loop f params cfgs (t :: rest) ds e
    = (Err (errorString ("invalid detector key: " +:+ t)), e).
Proof. intros H. simpl. rewrite H. reflexivity. Qed.

Lemma getDetectors_loop_created (f : ResourceProviderFactory)
    (params : component.ProcessorCreateParams) (cfgs : ResourceDetectorConfig)
    (t : DetectorType) (rest : list DetectorType) (ds : list Detector) (e : Env)
    (factory : DetectorFactory) (d : Detector) (w : World) :
  f_detectors f !! t = Some factory ->
  factory params (GetConfigFromType cfgs t) (world e) = (Ok d, w) ->
  getDetectors_loop f params cfgs (t :: rest) ds e
    = getDetectors_loop f params cfgs rest (ds ++ [d])
        {| world := w; trace := trace e ++ [EvCreate t] |}.
Proof. intros Hf Hc. simpl. rewrite Hf. unfold callFactory. rewrite Hc. reflexivity. Qed.

(** A constructor that fails ends the construction with an error that names
    the type and wraps the cause. *)
Lemma getDetectors_loop_failed (f : ResourceProviderFactory)
    (params : component.ProcessorCreateParams) (cfgs : ResourceDetectorConfig)
    (t : DetectorType) (rest : list DetectorType) (ds : list Detector) (e : Env)
    (factory : DetectorFactory) (er : GoError) (w : World) :
  f_detectors f !! t = Some factory ->
  factory params (GetConfigFromType cfgs t) (world e) = (Err er, w) ->
  getDetectors_loop f params cfgs (t :: rest) ds e
    = (Err (wrapError ("failed creating detector type " +:+ Quote t +:+ ": " +:+ Error er) er),
       {| world := w; trace := trace e ++ [EvCreate t] |}).
Proof. intros Hf Hc. simpl. rewrite Hf. unfold callFactory. rewrite Hc. reflexivity. Qed.

(** C4, as the code has it: for the request [X, bogus] with bogus not
    registered and X registered with a constructor that succeeds, the
    constructor of X is called, once, before the lookup of bogus misses; the
    call then fails with the error "invalid detector key: bogus" and returns
    no provider. Types requested after the unregistered one change nothing:
    their constructors are not called. *)
Theorem CreateResourceProvider_unknown_type (f : ResourceProviderFactory)
    (params : component.ProcessorCreateParams) (timeout : time.Duration)
    (cfgs : ResourceDetectorConfig) (X bogus : DetectorType) (post : list DetectorType)
    (factoryX : DetectorFactory) (dX : Detector) (w1 : World) (e : Env) :
  let e1 := {| world := w1; trace := trace e ++ [EvCreate X] |} in
  f_detectors f !! bogus = None ->
  f_detectors f !! X = Some factoryX ->
  factoryX params (GetConfigFromType cfgs X) (world e) = (Ok dX, w1) ->
  CreateResourceProvider f params timeout cfgs [X; bogus] e
    = (Err (errorString ("invalid detector key: " +:+ bogus)), e1)
  /\ createCalls (trace e1) = createCalls (trace e) ++ [X]
  /\ CreateResourceProvider f params timeout cfgs ([X; bogus] ++ post) e
     = CreateResourceProvider f params timeout cfgs [X; bogus] e.
Proof.
  intros e1 Hbogus HX Hcreate.
  assert (Hrun : forall rest,
             getDetectors f params cfgs (X :: bogus :: rest) e
             = (Err (errorString ("invalid detector key: " +:+ bogus)), e1)).
  { intros rest. unfold getDetectors.
    rewrite (getDetectors_loop_created f params cfgs X _ _ e factoryX dX w1 HX Hcreate).
    apply getDetectors_loop_unknown, Hbogus. }
  split; [|split].
  - unfold CreateResourceProvider. rewrite Hrun. reflexivity.
  - unfold e1. cbn [trace]. rewrite createCalls_app. reflexivity.
  - unfold CreateResourceProvider. simpl app. rewrite !Hrun. reflexivity.
Qed.

(** * Further properties *)

(** ** Merging: keys, order, size *)

Lemma keys_Insert (k : string) (v : pdata.AttributeValue) (am : pdata.AttributeMap) :
  pdata.keys (pdata.Insert k v am) =
    match pdata.Get k am with Some _ => pdata.keys am | None => pdata.keys am ++ [k] end.
Proof.
  unfold pdata.Insert. destruct (pdata.Get k am); [reflexivity|].
  unfold pdata.keys. rewrite map_app. reflexivity.
Qed.

Lemma keys_Upsert (k : string) (v : pdata.AttributeValue) (am : pdata.AttributeMap) :
  pdata.keys (pdata.Upsert k v am) =
    match pdata.Get k am with Some _ => pdata.keys am | None => pdata.keys am ++ [k] end.
Proof.
  induction am as [|[k1 v1] am IH]; simpl; [reflexivity|].
  destruct (decide (k1 = k)) as [->|Hne]; simpl; [reflexivity|].
  rewrite IH. destruct (pdata.Get k am); reflexivity.
Qed.

Lemma Upsert_absent (k : string) (v : pdata.AttributeValue) (am : pdata.AttributeMap) :
  pdata.Get k am = None -> pdata.Upsert k v am = am ++ [(k, v)].
Proof.
  induction am as [|[k1 v1] am IH]; simpl; [reflexivity|].
  destruct (decide (k1 = k)); [discriminate|]. intros H. rewrite IH by exact H. reflexivity.
Qed.

Lemma keys_merge_step (overrideTo : bool) (k : string) (v : pdata.AttributeValue)
    (am : pdata.AttributeMap) :
  pdata.keys (merge_step overrideTo k v am) =
    match pdata.Get k am with Some _ => pdata.keys am | None => pdata.keys am ++ [k] end.
Proof. destruct overrideTo; [apply keys_Upsert | apply keys_Insert]. Qed.

Lemma NoDup_merge_step (overrideTo : bool) (k : string) (v : pdata.AttributeValue)
    (am : pdata.AttributeMap) :
  NoDup (pdata.keys am) -> NoDup (pdata.keys (merge_step overrideTo k v am)).
Proof.
  intros Hnd. rewrite keys_merge_step. destruct (pdata.Get k am) eqn:HG; [exact Hnd|].
  apply NoDup_app. split; [exact Hnd|]. split; [|apply NoDup_singleton].
  intros x Hx Hx'. apply list_elem_of_singleton in Hx'. subst x.
  apply Get_None in HG. contradiction.
Qed.

Lemma NoDup_merged (overrideTo : bool) (from toAttr : pdata.AttributeMap) :
  NoDup (pdata.keys toAttr) -> NoDup (pdata.keys (merged overrideTo from toAttr)).
Proof.
  revert toAttr. induction from as [|[k1 v1] from IH]; intros toAttr Hnd; [exact Hnd|].
  rewrite merged_cons. apply IH. apply (NoDup_merge_step overrideTo). exact Hnd.
Qed.

Lemma keys_merged_prefix (overrideTo : bool) (from toAttr : pdata.AttributeMap) :
  pdata.keys toAttr `prefix_of` pdata.keys (merged overrideTo from toAttr).
Proof.
  revert toAttr. induction from as [|[k1 v1] from IH]; intros toAttr; [reflexivity|].
  rewrite merged_cons. etrans; [|apply IH].
  change (pdata.keys toAttr `prefix_of` pdata.keys (merge_step overrideTo k1 v1 toAttr)).
  rewrite keys_merge_step. destruct (pdata.Get k1 toAttr); [reflexivity|].
  apply prefix_app_r. reflexivity.
Qed.

Lemma keys_merged_elem (overrideTo : bool) (k : string) (from toAttr : pdata.AttributeMap) :
  k ∈ pdata.keys (merged overrideTo from toAttr)
  <-> k ∈ pdata.keys toAttr \/ k ∈ pdata.keys from.
Proof.
  revert toAttr. induction from as [|[k1 v1] from IH]; intros toAttr.
  - simpl. split; [intros H; left; exact H | intros [H|H]; [exact H|]].
    apply elem_of_nil in H. contradiction.
  - rewrite merged_cons, IH.
    change (k ∈ pdata.keys (merge_step overrideTo k1 v1 toAttr) \/ k ∈ pdata.keys from
            <-> k ∈ pdata.keys toAttr \/ k ∈ k1 :: pdata.keys from).
    rewrite keys_merge_step, elem_of_cons. destruct (pdata.Get k1 toAttr) eqn:HG.
    + apply Get_Some_elem, elem_keys in HG.
      split; [intros [H|H]; [left; exact H | right; right; exact H]|].
      intros [H|[->|H]]; [left; exact H | left; exact HG | right; exact H].
    + rewrite elem_of_app, list_elem_of_singleton.
      split.
      * intros [[H|H]|H]; [left; exact H | right; left; exact H | right; right; exact H].
      * intros [H|[H|H]]; [left; left; exact H | left; right; exact H | right; exact H].
Qed.

Lemma merged_insert_extends (from toAttr : pdata.AttributeMap) :
  exists added : pdata.AttributeMap,
    merged false from toAttr = toAttr ++ added /\ (forall x, x ∈ added -> x ∈ from).
Proof.
  revert toAttr. induction from as [|[k1 v1] from IH]; intros toAttr.
  - exists []. split; [symmetry; apply app_nil_r | intros x Hx; exact Hx].
  - rewrite merged_cons. unfold pdata.Insert. destruct (pdata.Get k1 toAttr).
    + destruct (IH toAttr) as (added & Heq & Hin). exists added.
      split; [exact Heq | intros x Hx; apply list_elem_of_further, Hin, Hx].
    + destruct (IH (toAttr ++ [(k1, v1)])) as (added & Heq & Hin).
      exists ((k1, v1) :: added). split; [rewrite Heq, <- app_assoc; reflexivity|].
      intros x Hx. apply elem_of_cons in Hx as [->|Hx];
        [apply list_elem_of_here | apply list_elem_of_further, Hin, Hx].
Qed.

Lemma length_merged (overrideTo : bool) (from toAttr : pdata.AttributeMap) :
  (length toAttr <= length (merged overrideTo from toAttr) <= length toAttr + length from)%nat.
Proof.
  revert toAttr. induction from as [|[k1 v1] from IH]; intros toAttr; [simpl; lia|].
  rewrite merged_cons. specialize (IH (merge_step overrideTo k1 v1 toAttr)).
  fold (merge_step overrideTo k1 v1 toAttr).
  assert (Hstep : (length toAttr <= length (merge_step overrideTo k1 v1 toAttr)
                   <= S (length toAttr))%nat).
  { rewrite <- !(length_map fst). fold (pdata.keys toAttr).
    fold (pdata.keys (merge_step overrideTo k1 v1 toAttr)). rewrite keys_merge_step.
    destruct (pdata.Get k1 toAttr); [lia|]. rewrite length_app. simpl. lia. }
  simpl. lia.
Qed.

Lemma merged_disjoint (overrideTo : bool) (from toAttr : pdata.AttributeMap) :
  NoDup (pdata.keys from) ->
  (forall k, k ∈ pdata.keys from -> k ∉ pdata.keys toAttr) ->
  merged overrideTo from toAttr = toAttr ++ from.
Proof.
  revert toAttr. induction from as [|[k1 v1] from IH]; intros toAttr Hnd Hdis.
  - symmetry. apply app_nil_r.
  - simpl in Hnd. apply NoDup_cons in Hnd as [Hk1 Hnd]. rewrite merged_cons.
    assert (HG : pdata.Get k1 toAttr = None).
    { apply Get_None, Hdis. simpl. apply list_elem_of_here. }
    assert (Hstep : (if overrideTo then pdata.Upsert k1 v1 toAttr
                     else pdata.Insert k1 v1 toAttr) = toAttr ++ [(k1, v1)]).
    { destruct overrideTo; [apply Upsert_absent, HG | unfold pdata.Insert; rewrite HG; reflexivity]. }
    rewrite Hstep, IH; [rewrite <- app_assoc; reflexivity | exact Hnd |].
    intros k Hk. unfold pdata.keys. rewrite map_app, elem_of_app. simpl.
    rewrite list_elem_of_singleton. intros [H| ->]; [|contradiction].
    eapply Hdis; [|exact H]. simpl. apply list_elem_of_further, Hk.
Qed.

(** X1: a merge keeps the target key-unique, whatever the source holds and
    whatever the flag. *)
Theorem MergeResource_keeps_keys_unique (to from : pdata.Resource) (overrideTo : bool) :
  NoDup (pdata.keys (pdata.Attributes to)) ->
  NoDup (pdata.keys (pdata.Attributes (MergeResource to from overrideTo))).
Proof. intros Hnd. rewrite MergeResource_Attributes. apply NoDup_merged, Hnd. Qed.

(** X2: the keys of the target after a merge are the keys it had and the keys
    of the source, and no others. *)
Theorem MergeResource_keys (to from : pdata.Resource) (overrideTo : bool) (k : string) :
  k ∈ pdata.keys (pdata.Attributes (MergeResource to from overrideTo))
  <-> k ∈ pdata.keys (pdata.Attributes to) \/ k ∈ pdata.keys (pdata.Attributes from).
Proof. rewrite MergeResource_Attributes. apply keys_merged_elem. Qed.

(** X3: a merge leaves the keys of the target where they were and puts new
    keys after them; without the override flag the target's pairs themselves
    are an untouched prefix, followed only by pairs of the source. *)
Theorem MergeResource_keeps_order (to from : pdata.Resource) (overrideTo : bool) :
  pdata.keys (pdata.Attributes to)
    `prefix_of` pdata.keys (pdata.Attributes (MergeResource to from overrideTo))
  /\ exists added : pdata.AttributeMap,
       pdata.Attributes (MergeResource to from false) = pdata.Attributes to ++ added
       /\ (forall x, x ∈ added -> x ∈ pdata.Attributes from).
Proof.
  rewrite !MergeResource_Attributes. split; [apply keys_merged_prefix|].
  apply merged_insert_extends.
Qed.

(** X4: merging a key-unique source that shares no key with the target
    appends the source to the target, under either flag; into the empty
    resource the result is the source itself. *)
Theorem MergeResource_disjoint (to from : pdata.Resource) (overrideTo : bool) :
  NoDup (pdata.keys (pdata.Attributes from)) ->
  (forall k, k ∈ pdata.keys (pdata.Attributes from) -> k ∉ pdata.keys (pdata.Attributes to)) ->
  pdata.Attributes (MergeResource to from overrideTo)
    = pdata.Attributes to ++ pdata.Attributes from
  /\ MergeResource pdata.NewResource from overrideTo = from.
Proof.
  intros Hnd Hdis. split.
  - rewrite MergeResource_Attributes. apply merged_disjoint; assumption.
  - assert (H : pdata.Attributes (MergeResource pdata.NewResource from overrideTo)
                = pdata.Attributes from).
    { rewrite MergeResource_Attributes, merged_disjoint; [reflexivity | exact Hnd |].
      intros k _. apply not_elem_of_nil. }
    destruct (MergeResource pdata.NewResource from overrideTo), from. simpl in H.
    rewrite H. reflexivity.
Qed.

(** X5: a merge never shrinks the target and adds at most one attribute per
    attribute of the source. *)
Theorem MergeResource_Len (to from : pdata.Resource) (overrideTo : bool) :
  (pdata.Len (pdata.Attributes to)
   <= pdata.Len (pdata.Attributes (MergeResource to from overrideTo))
   <= pdata.Len (pdata.Attributes to) + pdata.Len (pdata.Attributes from))%nat.
Proof. rewrite MergeResource_Attributes. apply length_merged. Qed.

(** X6: the target is empty after a merge exactly when it was empty and the
    source is empty. *)
Theorem MergeResource_IsEmpty (to from : pdata.Resource) (overrideTo : bool) :
  IsEmptyResource (MergeResource to from overrideTo)
  = IsEmptyResource to && IsEmptyResource from.
Proof.
  unfold IsEmptyResource. rewrite MergeResource_Attributes. unfold pdata.Len.
  destruct (pdata.Attributes from) as [|[k1 v1] fromAttr].
  - simpl. rewrite andb_true_r. reflexivity.
  - change (length ((k1, v1) :: fromAttr) =? 0)%nat with false. rewrite andb_false_r.
    apply Nat.eqb_neq. intros Hlen. apply nil_length_inv in Hlen.
    assert (Hk : k1 ∈ pdata.keys (merged overrideTo ((k1, v1) :: fromAttr)
                                   (pdata.Attributes to))).
    { apply keys_merged_elem. right. simpl. apply list_elem_of_here. }
    rewrite Hlen in Hk. apply elem_of_nil in Hk. exact Hk.
Qed.

(** ** Merging: repetition, composition *)

Lemma keys_reverse (am : pdata.AttributeMap) :
  pdata.keys (reverse am) = reverse (pdata.keys am).
Proof. unfold pdata.keys. rewrite <- fmap_reverse. reflexivity. Qed.

Lemma Get_reverse_NoDup (k : string) (am : pdata.AttributeMap) :
  NoDup (pdata.keys am) -> pdata.Get k (reverse am) = pdata.Get k am.
Proof.
  intros Hnd. destruct (pdata.Get k (reverse am)) as [v|] eqn:HG.
  - symmetry. apply elem_Get_NoDup; [exact Hnd|].
    apply Get_Some_elem in HG. rewrite elem_of_reverse in HG. exact HG.
  - symmetry. apply Get_None. apply Get_None in HG.
    rewrite keys_reverse, elem_of_reverse in HG. exact HG.
Qed.

(** Two key-unique attribute maps with the same keys in the same order and
    the same value under every key are the same map. *)
Lemma AttributeMap_ext (l1 l2 : pdata.AttributeMap) :
  pdata.keys l1 = pdata.keys l2 -> NoDup (pdata.keys l1) ->
  (forall k, pdata.Get k l1 = pdata.Get k l2) -> l1 = l2.
Proof.
  revert l2. induction l1 as [|[k1 v1] l1 IH]; intros [|[k2 v2] l2] Hkeys Hnd HG;
    try discriminate; [reflexivity|].
  simpl in Hkeys. injection Hkeys as <- Hkeys.
  simpl in Hnd. apply NoDup_cons in Hnd as [Hk1 Hnd].
  pose proof (HG k1) as H1. simpl in H1.
  destruct (decide (k1 = k1)); [|contradiction]. injection H1 as <-.
  f_equal. apply IH; [exact Hkeys | exact Hnd |].
  intros k. specialize (HG k). simpl in HG.
  destruct (decide (k1 = k)) as [<-|Hne]; [|exact HG].
  transitivity (@None pdata.AttributeValue); [|symmetry];
    apply Get_None; [|rewrite <- Hkeys]; exact Hk1.
Qed.

Lemma merged_insert_absorbed (from toAttr : pdata.AttributeMap) :
  (forall k, k ∈ pdata.keys from -> k ∈ pdata.keys toAttr) ->
  merged false from toAttr = toAttr.
Proof.
  induction from as [|[k1 v1] from IH]; intros Hsub; [reflexivity|].
  rewrite merged_cons. unfold pdata.Insert.
  destruct (pdata.Get k1 toAttr) eqn:HG.
  - apply IH. intros k Hk. apply Hsub. simpl. apply list_elem_of_further, Hk.
  - exfalso. apply Get_None in HG. apply HG, Hsub. simpl. apply list_elem_of_here.
Qed.

Lemma keys_merged_present (overrideTo : bool) (from toAttr : pdata.AttributeMap) :
  (forall k, k ∈ pdata.keys from -> k ∈ pdata.keys toAttr) ->
  pdata.keys (merged overrideTo from toAttr) = pdata.keys toAttr.
Proof.
  revert toAttr. induction from as [|[k1 v1] from IH]; intros toAttr Hsub; [reflexivity|].
  rewrite merged_cons. fold (merge_step overrideTo k1 v1 toAttr).
  assert (Hstep : pdata.keys (merge_step overrideTo k1 v1 toAttr) = pdata.keys toAttr).
  { rewrite keys_merge_step. destruct (pdata.Get k1 toAttr) eqn:HG; [reflexivity|].
    exfalso. apply Get_None in HG. apply HG, Hsub. simpl. apply list_elem_of_here. }
  rewrite IH; [exact Hstep|]. intros k Hk. rewrite Hstep. apply Hsub.
  simpl. apply list_elem_of_further, Hk.
Qed.

Lemma merged_idempotent (overrideTo : bool) (from toAttr : pdata.AttributeMap) :
  (overrideTo = true -> NoDup (pdata.keys toAttr)) ->
  merged overrideTo from (merged overrideTo from toAttr) = merged overrideTo from toAttr.
Proof.
  intros Hnd.
  assert (Hsub : forall k, k ∈ pdata.keys from ->
                           k ∈ pdata.keys (merged overrideTo from toAttr)).
  { intros k Hk. apply keys_merged_elem. right. exact Hk. }
  destruct overrideTo; [|apply merged_insert_absorbed, Hsub].
  apply AttributeMap_ext.
  - apply keys_merged_present, Hsub.
  - rewrite keys_merged_present by exact Hsub. apply NoDup_merged, Hnd. reflexivity.
  - intros k. rewrite !Get_merged_upsert_last.
    destruct (pdata.Get k (reverse from)); reflexivity.
Qed.

(** X7: merging the same source a second time changes nothing: without the
    override flag for every target, with it for a key-unique target. *)
Theorem MergeResource_idempotent (to from : pdata.Resource) (overrideTo : bool) :
  (overrideTo = true -> NoDup (pdata.keys (pdata.Attributes to))) ->
  MergeResource (MergeResource to from overrideTo) from overrideTo
  = MergeResource to from overrideTo.
Proof.
  intros Hnd.
  assert (H : pdata.Attributes (MergeResource (MergeResource to from overrideTo) from overrideTo)
              = pdata.Attributes (MergeResource to from overrideTo)).
  { rewrite (MergeResource_Attributes (MergeResource to from overrideTo)).
    rewrite MergeResource_Attributes. apply merged_idempotent, Hnd. }
  destruct (MergeResource (MergeResource to from overrideTo) from overrideTo),
    (MergeResource to from overrideTo). simpl in H. rewrite H. reflexivity.
Qed.

(** X8: three resources merged without the override flag give the same
    value under every key whichever two are merged first: the first of the
    three that has the key provides it. *)
Theorem MergeResource_insert_assoc (a b c : pdata.Resource) (k : string) :
  pdata.Get k (pdata.Attributes (MergeResource (MergeResource a b false) c false))
  = pdata.Get k (pdata.Attributes (MergeResource a (MergeResource b c false) false))
  /\ pdata.Get k (pdata.Attributes (MergeResource (MergeResource a b false) c false))
     = match pdata.Get k (pdata.Attributes a) with
       | Some v => Some v
       | None => match pdata.Get k (pdata.Attributes b) with
                 | Some v => Some v
                 | None => pdata.Get k (pdata.Attributes c)
                 end
       end.
Proof.
  rewrite !MergeResource_Attributes, !Get_merged_insert.
  destruct (pdata.Get k (pdata.Attributes a)); [split; reflexivity|].
  destruct (pdata.Get k (pdata.Attributes b)); split; reflexivity.
Qed.

(** X9: overriding a target with a key-unique source gives the same value
    under every key as merging the target into that source without the
    override flag. *)
Theorem MergeResource_override_dual (to from : pdata.Resource) (k : string) :
  NoDup (pdata.keys (pdata.Attributes from)) ->
  pdata.Get k (pdata.Attributes (MergeResource to from true))
  = pdata.Get k (pdata.Attributes (MergeResource from to false)).
Proof.
  intros Hnd. rewrite !MergeResource_Attributes, Get_merged_upsert_last, Get_merged_insert.
  rewrite Get_reverse_NoDup by exact Hnd. reflexivity.
Qed.

(** ** Flattening: size, order, merges *)

Lemma AttributesToMap_lookup_NoDup (k : string) (am : pdata.AttributeMap) :
  NoDup (pdata.keys am) -> AttributesToMap am !! k = UnwrapAttribute <$> pdata.Get k am.
Proof.
  intros Hnd. change (AttributesToMap am) with (filled am ∅).
  rewrite filled_last, lookup_empty, Get_reverse_NoDup by exact Hnd.
  destruct (pdata.Get k am); reflexivity.
Qed.

Lemma size_filled (am : pdata.AttributeMap) (mp : gmap string Plain) :
  (size (filled am mp) <= size mp + length am)%nat
  /\ (NoDup (pdata.keys am) -> (forall k, k ∈ pdata.keys am -> mp !! k = None) ->
      size (filled am mp) = (size mp + length am)%nat).
Proof.
  revert mp. induction am as [|[k1 v1] am IH]; intros mp.
  - simpl. split; [lia | intros _ _; lia].
  - change (filled ((k1, v1) :: am) mp) with (filled am (<[k1 := UnwrapAttribute v1]> mp)).
    destruct (IH (<[k1 := UnwrapAttribute v1]> mp)) as [Hle Heq].
    pose proof (map_size_insert k1 (UnwrapAttribute v1) mp) as Hins. split.
    + simpl. destruct (mp !! k1); simpl in Hins; lia.
    + intros Hnd Hfree. simpl in Hnd. apply NoDup_cons in Hnd as [Hk1 Hnd].
      rewrite Heq; [|exact Hnd|].
      * rewrite Hins, (Hfree k1) by (simpl; apply list_elem_of_here). simpl. lia.
      * intros k Hk. rewrite lookup_insert_ne by (intros ->; contradiction).
        apply Hfree. simpl. apply list_elem_of_further, Hk.
Qed.

(** X10: the flattened map never has more entries than the attribute map has
    attributes, and has exactly as many when the keys are unique. *)
Theorem AttributesToMap_size (am : pdata.AttributeMap) :
  (size (AttributesToMap am) <= pdata.Len am)%nat
  /\ (NoDup (pdata.keys am) -> size (AttributesToMap am) = pdata.Len am).
Proof.
  change (AttributesToMap am) with (filled am ∅). unfold pdata.Len.
  destruct (size_filled am ∅) as [Hle Heq]. rewrite map_size_empty in Hle, Heq.
  split; [exact Hle|]. intros Hnd. rewrite Heq; [reflexivity | exact Hnd |].
  intros k _. apply lookup_empty.
Qed.

(** X11: flattening an array keeps its length and the order of its elements:
    the element at an index is the flattened element of the array at that
    index, and there is none past the end. *)
Theorem getSerializableArray_lookup (inArr : pdata.AnyValueArray) (i : nat) :
  getSerializableArray inArr !! i = UnwrapAttribute <$> inArr !! i
  /\ length (getSerializableArray inArr) = length inArr.
Proof.
  rewrite getSerializableArray_map. split; [apply list_lookup_fmap | apply length_map].
Qed.

(** X12: for key-unique resources, flattening commutes with merging: the
    flattened merge is the union of the flattened resources, in which the
    target wins a shared key without the override flag and the source wins it
    with the flag. *)
Theorem AttributesToMap_MergeResource (to from : pdata.Resource) :
  NoDup (pdata.keys (pdata.Attributes to)) ->
  NoDup (pdata.keys (pdata.Attributes from)) ->
  AttributesToMap (pdata.Attributes (MergeResource to from false))
    = AttributesToMap (pdata.Attributes to) ∪ AttributesToMap (pdata.Attributes from)
  /\ AttributesToMap (pdata.Attributes (MergeResource to from true))
     = AttributesToMap (pdata.Attributes from) ∪ AttributesToMap (pdata.Attributes to).
Proof.
  intros Hto Hfrom. rewrite !MergeResource_Attributes.
  split; apply map_eq; intros k; rewrite lookup_union;
    rewrite !AttributesToMap_lookup_NoDup by (try apply NoDup_merged; assumption).
  - rewrite Get_merged_insert.
    destruct (pdata.Get k (pdata.Attributes to)), (pdata.Get k (pdata.Attributes from));
      reflexivity.
  - rewrite Get_merged_upsert_last, Get_reverse_NoDup by exact Hfrom.
    destruct (pdata.Get k (pdata.Attributes to)), (pdata.Get k (pdata.Attributes from));
      reflexivity.
Qed.

(** ** The provider: runs of any length *)

Lemma infoLines_app (a b : list Event) : infoLines (a ++ b) = infoLines a ++ infoLines b.
Proof.
  induction a as [|ev a IH]; simpl; [reflexivity|].
  destruct ev; simpl; rewrite IH; reflexivity.
Qed.

Lemma detectCalls_EvDetect (ctx : context.Context) (ds : list Detector) :
  detectCalls (map (fun d => EvDetect (detectorName d) ctx) ds)
  = map (fun d => (detectorName d, ctx)) ds.
Proof. induction ds as [|d ds IH]; simpl; [reflexivity | rewrite IH; reflexivity]. Qed.

Lemma infoLines_EvDetect (ctx : context.Context) (ds : list Detector) :
  infoLines (map (fun d => EvDetect (detectorName d) ctx) ds) = [].
Proof. induction ds as [|d ds IH]; simpl; [reflexivity | exact IH]. Qed.

(** The loop over detectors that all succeed, followed by more detectors. *)
Lemma detectResource_loop_app (ctx : context.Context) (pre post : list Detector)
    (res : pdata.Resource) (e : Env) (rs : list pdata.Resource) (w1 : World) :
  detectAll ctx pre (world e) = Some (rs, w1) ->
  detectResource_loop ctx (pre ++ post) res e
  = detectResource_loop ctx post (mergeAll rs res)
      {| world := w1;
         trace := trace e ++ map (fun d => EvDetect (detectorName d) ctx) pre |}.
Proof.
  revert res e rs. induction pre as [|d pre IH]; intros res e rs Hall.
  - simpl in Hall. injection Hall as <- <-. simpl. rewrite app_nil_r.
    destruct e; reflexivity.
  - simpl in Hall. destruct (Detect d ctx (world e)) as [[r|er] w] eqn:HD; [|discriminate].
    destruct (detectAll ctx pre w) as [[rs' w2]|] eqn:Hrest; [|discriminate].
    injection Hall as <- <-.
    change ((d :: pre) ++ post) with (d :: (pre ++ post)).
    rewrite (detectResource_loop_Ok ctx d _ res r e w HD).
    rewrite (IH _ {| world := w; trace := _ |} rs' Hrest).
    cbn [trace world map mergeAll fold_left]. rewrite <- app_assoc. reflexivity.
Qed.

Lemma Get_mergeAll (k : string) (rs : list pdata.Resource) (res : pdata.Resource) :
  pdata.Get k (pdata.Attributes (mergeAll rs res))
  = match pdata.Get k (pdata.Attributes res) with Some v => Some v | None => firstOf k rs end.
Proof.
  revert res. induction rs as [|r rs IH]; intros res; simpl.
  - destruct (pdata.Get k (pdata.Attributes res)); reflexivity.
  - unfold mergeAll in *. simpl. rewrite IH, MergeResource_Attributes, Get_merged_insert.
    destruct (pdata.Get k (pdata.Attributes res)); reflexivity.
Qed.

Lemma detectResource_loop_NoDup (ctx : context.Context) (ds : list Detector)
    (res out : pdata.Resource) (e e' : Env) :
  detectResource_loop ctx ds res e = (Ok out, e') ->
  NoDup (pdata.keys (pdata.Attributes res)) -> NoDup (pdata.keys (pdata.Attributes out)).
Proof.
  revert res e. induction ds as [|d ds IH]; intros res e Hrun Hnd.
  - simpl in Hrun. injection Hrun as <- _. exact Hnd.
  - destruct (Detect d ctx (world e)) as [[r|er] w] eqn:HD.
    + rewrite (detectResource_loop_Ok _ _ _ _ _ _ _ HD) in Hrun.
      eapply IH; [exact Hrun|]. rewrite MergeResource_Attributes. apply NoDup_merged, Hnd.
    + rewrite (detectResource_loop_Err _ _ _ _ _ _ _ HD) in Hrun. discriminate.
Qed.

(** The first [Get] on a new provider, by the outcome of the loop. *)
Lemma Get_new (logger : zap.Logger) (timeout : time.Duration) (detectors : list Detector)
    (ctx : context.Context) (e : Env) :
  let p := NewResourceProvider logger timeout detectors in
  let ctx' := context.WithTimeout (clock (world e)) ctx timeout in
  Get ctx p e =
    match detectResource_loop ctx' detectors pdata.NewResource
            (Info logger "began detecting resource information" [] e) with
    | (Err er, e1) =>
        (Some (None, Some er),
         set_once (set_detectedResource p {| resource := None; err := Some er |}), e1)
    | (Ok res, e1) =>
        (Some (Some res, None),
         set_once (set_detectedResource p {| resource := Some res; err := None |}),
         Info logger "detected resource information"
           [("resource", PlainMap (AttributesToMap (pdata.Attributes res)))] e1)
    end.
Proof.
  intros p ctx'. unfold Get. cbn [p_once p NewResourceProvider p_timeout]. fold ctx'.
  fold p. rewrite detectResource_outcome. cbn [p_detectors p_logger p NewResourceProvider].
  destruct (detectResource_loop ctx' detectors pdata.NewResource
              (Info logger "began detecting resource information" [] e))
    as [[res|er] e1]; reflexivity.
Qed.

(** X13: when every detector of a new provider succeeds, [Get] returns the
    resources merged in list order: under every key the result holds the
    value of the first detector whose resource has the key. Every detector is
    called once, in order. *)
Theorem Get_all_succeed (logger : zap.Logger) (timeout : time.Duration)
    (detectors : list Detector) (ctx : context.Context) (e : Env)
    (rs : list pdata.Resource) (w' : World) :
  let ctx' := context.WithTimeout (clock (world e)) ctx timeout in
  detectAll ctx' detectors (world e) = Some (rs, w') ->
  exists (p1 : ResourceProvider) (e1 : Env),
    Get ctx (NewResourceProvider logger timeout detectors) e
      = (Some (Some (mergeAll rs pdata.NewResource), None), p1, e1)
    /\ (forall k, pdata.Get k (pdata.Attributes (mergeAll rs pdata.NewResource))
                  = firstOf k rs)
    /\ world e1 = w'
    /\ detectCalls (trace e1)
       = detectCalls (trace e) ++ map (fun d => (detectorName d, ctx')) detectors.
Proof.
  intros ctx' Hall. rewrite Get_new. fold ctx'.
  pose proof (detectResource_loop_app ctx' detectors [] pdata.NewResource
                (Info logger "began detecting resource information" [] e) rs w' Hall) as Hrun.
  rewrite app_nil_r in Hrun. rewrite Hrun. simpl detectResource_loop.
  eexists. eexists. split; [reflexivity|]. split; [|split; [reflexivity|]].
  - intros k. rewrite Get_mergeAll. reflexivity.
  - cbn [trace Info emit]. rewrite !detectCalls_app, detectCalls_EvDetect. simpl.
    rewrite !app_nil_r. reflexivity.
Qed.

(** X14: when the detectors before some detector succeed and that one fails,
    [Get] returns its error and no resource; the detectors up to and
    including the failing one were called once each, in order, and none
    after it. *)
Theorem Get_first_failure (logger : zap.Logger) (timeout : time.Duration)
    (pre post : list Detector) (d : Detector) (ctx : context.Context) (e : Env)
    (rs : list pdata.Resource) (er : GoError) (w1 w2 : World) :
  let ctx' := context.WithTimeout (clock (world e)) ctx timeout in
  detectAll ctx' pre (world e) = Some (rs, w1) ->
  Detect d ctx' w1 = (Err er, w2) ->
  exists (p1 : ResourceProvider) (e1 : Env),
    Get ctx (NewResourceProvider logger timeout (pre ++ d :: post)) e
      = (Some (None, Some er), p1, e1)
    /\ world e1 = w2
    /\ detectCalls (trace e1)
       = detectCalls (trace e) ++ map (fun d => (detectorName d, ctx')) (pre ++ [d]).
Proof.
  intros ctx' Hall Hfail. rewrite Get_new. fold ctx'.
  rewrite (detectResource_loop_app ctx' pre (d :: post) pdata.NewResource
             (Info logger "began detecting resource information" [] e) rs w1 Hall).
  rewrite (detectResource_loop_Err ctx' d post _ er {| world := w1; trace := _ |} w2 Hfail).
  eexists. eexists. split; [reflexivity|]. split; [reflexivity|].
  cbn [trace Info emit]. rewrite !detectCalls_app, detectCalls_EvDetect, map_app. simpl.
  rewrite app_nil_r, <- app_assoc. reflexivity.
Qed.

(** X15: the resource a new provider returns is key-unique, whatever the
    detectors return, resources with repeated keys included. *)
Theorem Get_result_keys_unique (logger : zap.Logger) (timeout : time.Duration)
    (detectors : list Detector) (ctx : context.Context) (e e1 : Env)
    (res : pdata.Resource) (er : error) (p1 : ResourceProvider) :
  Get ctx (NewResourceProvider logger timeout detectors) e = (Some (Some res, er), p1, e1) ->
  NoDup (pdata.keys (pdata.Attributes res)).
Proof.
  rewrite Get_new.
  destruct (detectResource_loop (context.WithTimeout (clock (world e)) ctx timeout) detectors
              pdata.NewResource (Info logger "began detecting resource information" [] e))
    as [[out|er'] e2] eqn:Hrun; intros [= <- _ _ _].
  eapply detectResource_loop_NoDup; [exact Hrun|]. apply NoDup_nil_2.
Qed.

(** X16: [Get] never changes the detectors, the timeout or the logger of a
    provider and always leaves the once done; on a provider whose once is done
    it changes nothing at all, and it panics exactly when the once is done
    while no result was ever stored. *)
Theorem Get_keeps_configuration (ctx : context.Context) (p : ResourceProvider) (e : Env) :
  p_detectors (snd (fst (Get ctx p e))) = p_detectors p
  /\ p_timeout (snd (fst (Get ctx p e))) = p_timeout p
  /\ p_logger (snd (fst (Get ctx p e))) = p_logger p
  /\ p_once (snd (fst (Get ctx p e))) = true
  /\ (p_once p = true -> snd (fst (Get ctx p e)) = p /\ snd (Get ctx p e) = e)
  /\ (fst (fst (Get ctx p e)) = None <-> p_once p = true /\ p_detectedResource p = None).
Proof.
  unfold Get. destruct (p_once p) eqn:Ho.
  - destruct (p_detectedResource p) eqn:Hd; simpl; rewrite ?Ho;
      repeat split; try reflexivity; try discriminate.
    intros [_ [=]].
  - rewrite detectResource_outcome.
    destruct (detectResource_loop _ (p_detectors p) pdata.NewResource _) as [[res|er] e1];
      simpl; repeat split; try reflexivity; try discriminate; intros [[=] _].
Qed.

(** X17: the first [Get] on a new provider logs "began detecting resource
    information" once, and after a successful run, and only then, "detected
    resource information" with the flattened result as its field. *)
Theorem Get_logs (logger : zap.Logger) (timeout : time.Duration)
    (detectors : list Detector) (ctx : context.Context) (e : Env) :
  infoLines (trace (snd (Get ctx (NewResourceProvider logger timeout detectors) e)))
  = infoLines (trace e)
    ++ (logger, "began detecting resource information", [])
    :: match fst (fst (Get ctx (NewResourceProvider logger timeout detectors) e)) with
       | Some (Some res, _) =>
           [(logger, "detected resource information",
             [("resource", PlainMap (AttributesToMap (pdata.Attributes res)))])]
       | _ => []
       end.
Proof.
  rewrite Get_new.
  set (ctx' := context.WithTimeout (clock (world e)) ctx timeout).
  assert (Hloop : forall ds res e0,
             infoLines (trace (snd (detectResource_loop ctx' ds res e0)))
             = infoLines (trace e0)).
  { induction ds as [|d ds IH]; intros res e0; [reflexivity|].
    destruct (Detect d ctx' (world e0)) as [[r|er] w] eqn:HD.
    - rewrite (detectResource_loop_Ok _ _ _ _ _ _ _ HD), IH. cbn [trace].
      rewrite infoLines_app. simpl. apply app_nil_r.
    - rewrite (detectResource_loop_Err _ _ _ _ _ _ _ HD). cbn [snd trace].
      rewrite infoLines_app. simpl. apply app_nil_r. }
  specialize (Hloop detectors pdata.NewResource
                (Info logger "began detecting resource information" [] e)).
  destruct (detectResource_loop ctx' detectors pdata.NewResource
              (Info logger "began detecting resource information" [] e))
    as [[res|er] e1]; cbn [fst snd trace Info emit] in *;
    rewrite ?infoLines_app, Hloop, infoLines_app; simpl.
  - rewrite <- app_assoc. reflexivity.
  - reflexivity.
Qed.

(** X18: every [Detect] call of the run gets one and the same context; its
    deadline is set, at most the provider's timeout after the reading of the
    clock at the call of [Get], and no later than the deadline of the
    context [Get] was called with. *)
Theorem Get_bounds_context (logger : zap.Logger) (timeout : time.Duration)
    (detectors : list Detector) (ctx : context.Context) (e : Env) :
  exists (k : nat) (d : time.Time),
    detectCalls (trace (snd (Get ctx (NewResourceProvider logger timeout detectors) e)))
    = detectCalls (trace e)
      ++ map (fun det => (detectorName det, {| context.Deadline := Some d |}))
           (take k detectors)
    /\ (d <= clock (world e) + timeout)%Z
    /\ (forall cur, context.Deadline ctx = Some cur -> (d <= cur)%Z).
Proof.
  destruct (WithTimeout_bounded (clock (world e)) ctx timeout) as (d & Hd & Hnow & Hcur).
  set (ctx' := context.WithTimeout (clock (world e)) ctx timeout) in *.
  assert (Hctx : ctx' = {| context.Deadline := Some d |}) by (destruct ctx'; simpl in Hd; congruence).
  rewrite Get_new. fold ctx'.
  destruct (detectResource_loop_calls ctx' detectors pdata.NewResource
              (Info logger "began detecting resource information" [] e))
    as (k & _ & Hcalls & _).
  exists k, d. split; [|split; assumption]. rewrite <- Hctx.
  destruct (detectResource_loop ctx' detectors pdata.NewResource
              (Info logger "began detecting resource information" [] e))
    as [[res|er] e1]; cbn [fst snd trace Info emit] in *;
    rewrite ?detectCalls_app, Hcalls, detectCalls_app; simpl; rewrite ?app_nil_r; reflexivity.
Qed.

(** ** The registry: requests of any length *)

Lemma createCalls_EvCreate (types : list DetectorType) :
  createCalls (map EvCreate types) = types.
Proof. induction types as [|t types IH]; simpl; [reflexivity | rewrite IH; reflexivity]. Qed.

Lemma constructAll_created (f : ResourceProviderFactory)
    (params : component.ProcessorCreateParams) (cfgs : ResourceDetectorConfig)
    (t : DetectorType) (rest : list DetectorType) (factory : DetectorFactory)
    (d : Detector) (w w1 : World) :
  f_detectors f !! t = Some factory ->
  factory params (GetConfigFromType cfgs t) w = (Ok d, w1) ->
  constructAll f params cfgs (t :: rest) w
  = match constructAll f params cfgs rest w1 with
    | Some (ds, w2) => Some (d :: ds, w2)
    | None => None
    end.
Proof. intros Hf Hc. simpl. unfold DetectorFactory in *. rewrite Hf, Hc. reflexivity. Qed.

Lemma constructAll_registered (f : ResourceProviderFactory)
    (params : component.ProcessorCreateParams) (cfgs : ResourceDetectorConfig)
    (types : list DetectorType) (w : World) (ds : list Detector) (w' : World) :
  constructAll f params cfgs types w = Some (ds, w') ->
  forall t, t ∈ types -> is_Some (f_detectors f !! t).
Proof.
  revert w ds. induction types as [|t' types IH]; intros w ds Hall t Hin.
  - apply elem_of_nil in Hin. contradiction.
  - destruct (f_detectors f !! t') as [factory|] eqn:Hf;
      [|simpl in Hall; unfold DetectorFactory in *; rewrite Hf in Hall; discriminate].
    destruct (factory params (GetConfigFromType cfgs t') w) as [[d|er] w1] eqn:Hc;
      [|simpl in Hall; unfold DetectorFactory in *; rewrite Hf, Hc in Hall; discriminate].
    rewrite (constructAll_created f params cfgs t' types factory d w w1 Hf Hc) in Hall.
    apply elem_of_cons in Hin as [->|Hin]; [exists factory; exact Hf|].
    destruct (constructAll f params cfgs types w1) as [[ds' w2]|] eqn:Hrest; [|discriminate].
    injection Hall as <- <-. eapply IH; [exact Hrest | exact Hin].
Qed.

(** The loop over types that are all constructed, followed by more types. *)
Lemma getDetectors_loop_app (f : ResourceProviderFactory)
    (params : component.ProcessorCreateParams) (cfgs : ResourceDetectorConfig)
    (pre rest : list DetectorType) (acc ds : list Detector) (e : Env) (w1 : World) :
  constructAll f params cfgs pre (world e) = Some (ds, w1) ->
  getDetectors_loop f params cfgs (pre ++ rest) acc e
  = getDetectors_loop f params cfgs rest (acc ++ ds)
      {| world := w1; trace := trace e ++ map EvCreate pre |}.
Proof.
  revert acc ds e. induction pre as [|t pre IH]; intros acc ds e Hall.
  - simpl in Hall. injection Hall as <- <-. simpl. rewrite !app_nil_r. destruct e; reflexivity.
  - simpl in Hall. destruct (f_detectors f !! t) as [factory|] eqn:Hf; [|discriminate].
    destruct (factory params (GetConfigFromType cfgs t) (world e)) as [[d|er] w] eqn:Hc;
      [|discriminate].
    destruct (constructAll f params cfgs pre w) as [[ds' w2]|] eqn:Hrest; [|discriminate].
    injection Hall as <- <-. change ((t :: pre) ++ rest) with (t :: (pre ++ rest)).
    rewrite (getDetectors_loop_created f params cfgs t _ acc e factory d w Hf Hc).
    rewrite (IH (acc ++ [d]) ds' {| world := w; trace := _ |} Hrest).
    cbn [trace world map]. rewrite <- !app_assoc. reflexivity.
Qed.

Lemma getDetectors_loop_Ok (f : ResourceProviderFactory)
    (params : component.ProcessorCreateParams) (cfgs : ResourceDetectorConfig)
    (types : list DetectorType) (acc out : list Detector) (e e1 : Env) :
  getDetectors_loop f params cfgs types acc e = (Ok out, e1) ->
  exists (ds : list Detector) (w' : World),
    constructAll f params cfgs types (world e) = Some (ds, w')
    /\ out = acc ++ ds
    /\ e1 = {| world := w'; trace := trace e ++ map EvCreate types |}.
Proof.
  revert acc e. induction types as [|t types IH]; intros acc e Hrun.
  - simpl in Hrun. injection Hrun as <- <-. exists [], (world e).
    split; [reflexivity|]. rewrite !app_nil_r. split; [reflexivity | destruct e; reflexivity].
  - destruct (f_detectors f !! t) as [factory|] eqn:Hf;
      [|rewrite (getDetectors_loop_unknown f params cfgs t types acc e Hf) in Hrun;
        discriminate].
    destruct (factory params (GetConfigFromType cfgs t) (world e)) as [[d|er] w] eqn:Hc;
      [|rewrite (getDetectors_loop_failed f params cfgs t types acc e factory er w Hf Hc)
          in Hrun; discriminate].
    rewrite (getDetectors_loop_created f params cfgs t types acc e factory d w Hf Hc) in Hrun.
    apply IH in Hrun as (ds & w' & Hall & -> & ->). cbn [world trace] in *.
    exists (d :: ds), w'. rewrite (constructAll_created f params cfgs t types factory d _ w Hf Hc), Hall.
    split; [reflexivity|]. rewrite <- !app_assoc. split; reflexivity.
Qed.



Lemma CreateResourceProvider_success_aux (f : ResourceProviderFactory)
    (params : component.ProcessorCreateParams) (timeout : time.Duration)
    (cfgs : ResourceDetectorConfig) (types : list DetectorType) (e : Env)
    (ds : list Detector) (w' : World) :
  constructAll f params cfgs types (world e) = Some (ds, w') ->
  CreateResourceProvider f params timeout cfgs types e
  = (Ok (NewResourceProvider (component.Logger params) timeout ds),
     {| world := w'; trace := trace e ++ map EvCreate types |}).
Proof.
  intros Hall. unfold CreateResourceProvider, getDetectors.
  pose proof (getDetectors_loop_app f params cfgs types [] [] ds e w' Hall) as Hrun.
  rewrite app_nil_r in Hrun. rewrite Hrun. reflexivity.
Qed.

(** X19: [CreateResourceProvider] returns a provider exactly when every
    requested type is registered and every constructor, called in request
    order from the world the previous one left, succeeds. The provider is
    then new (nothing detected, once not done), carries the logger of
    [params] and the timeout, and holds the constructed detectors in request
    order; each constructor was called once, in that order. *)
Theorem CreateResourceProvider_success (f : ResourceProviderFactory)
    (params : component.ProcessorCreateParams) (timeout : time.Duration)
    (cfgs : ResourceDetectorConfig) (types : list DetectorType) (e e1 : Env)
    (p : ResourceProvider) :
  CreateResourceProvider f params timeout cfgs types e = (Ok p, e1)
  <-> exists (ds : list Detector) (w' : World),
        constructAll f params cfgs types (world e) = Some (ds, w')
        /\ p = NewResourceProvider (component.Logger params) timeout ds
        /\ e1 = {| world := w'; trace := trace e ++ map EvCreate types |}.
Proof.
  unfold CreateResourceProvider, getDetectors. split.
  - destruct (getDetectors_loop f params cfgs types [] e) as [[out|er] e2] eqn:Hrun;
      [|discriminate].
    intros [= <- <-]. apply getDetectors_loop_Ok in Hrun as (ds & w' & Hall & -> & ->).
    exists ds, w'. split; [exact Hall|]. split; reflexivity.
  - intros (ds & w' & Hall & -> & ->).
    pose proof (getDetectors_loop_app f params cfgs types [] [] ds e w' Hall) as Hrun.
    rewrite app_nil_r in Hrun. rewrite Hrun. reflexivity.
Qed.

(** X20: a request that names a type the registry lacks, at any position,
    never yields a provider. *)
Theorem CreateResourceProvider_rejects_unknown (f : ResourceProviderFactory)
    (params : component.ProcessorCreateParams) (timeout : time.Duration)
    (cfgs : ResourceDetectorConfig) (types : list DetectorType) (t : DetectorType) (e : Env) :
  t ∈ types -> f_detectors f !! t = None ->
  exists er : GoError, fst (CreateResourceProvider f params timeout cfgs types e) = Err er.
Proof.
  intros Hin Hnone.
  destruct (CreateResourceProvider f params timeout cfgs types e) as [[p|er] e1] eqn:Hrun;
    [|exists er; reflexivity].
  exfalso. unfold CreateResourceProvider, getDetectors in Hrun.
  destruct (getDetectors_loop f params cfgs types [] e) as [[out|er] e2] eqn:Hloop;
    [|discriminate].
  apply getDetectors_loop_Ok in Hloop as (ds & w' & Hall & _ & _).
  destruct (constructAll_registered f params cfgs types (world e) ds w' Hall t Hin)
    as [factory Hsome].
  congruence.
Qed.

(** X21: when the types before some type are all constructed and that type is
    not registered, the call fails with "invalid detector key: " followed by
    the type; the constructors of the types before it were called, once each
    and in order, and no other. *)
Theorem CreateResourceProvider_first_unknown (f : ResourceProviderFactory)
    (params : component.ProcessorCreateParams) (timeout : time.Duration)
    (cfgs : ResourceDetectorConfig) (pre post : list DetectorType) (t : DetectorType)
    (ds : list Detector) (w1 : World) (e : Env) :
  constructAll f params cfgs pre (world e) = Some (ds, w1) ->
  f_detectors f !! t = None ->
  CreateResourceProvider f params timeout cfgs (pre ++ t :: post) e
  = (Err (errorString ("invalid detector key: " +:+ t)),
     {| world := w1; trace := trace e ++ map EvCreate pre |}).
Proof.
  intros Hall Hnone. unfold CreateResourceProvider, getDetectors.
  rewrite (getDetectors_loop_app f params cfgs pre (t :: post) [] ds e w1 Hall).
  rewrite (getDetectors_loop_unknown f params cfgs t post _ _ Hnone). reflexivity.
Qed.

(** X22: when the types before some type are all constructed and the
    constructor of that type fails, the call fails with an error whose
    message is "failed creating detector type ", the quoted type, ": " and the
    message of the cause, and which unwraps to the cause; the constructors up
    to and including the failing one were called, once each and in order, and
    none after it. *)
Theorem CreateResourceProvider_first_failure (f : ResourceProviderFactory)
    (params : component.ProcessorCreateParams) (timeout : time.Duration)
    (cfgs : ResourceDetectorConfig) (pre post : list DetectorType) (t : DetectorType)
    (factory : DetectorFactory) (ds : list Detector) (cause : GoError) (w1 w2 : World)
    (e : Env) :
  constructAll f params cfgs pre (world e) = Some (ds, w1) ->
  f_detectors f !! t = Some factory ->
  factory params (GetConfigFromType cfgs t) w1 = (Err cause, w2) ->
  exists er : GoError,
    CreateResourceProvider f params timeout cfgs (pre ++ t :: post) e
    = (Err er, {| world := w2; trace := trace e ++ map EvCreate (pre ++ [t]) |})
    /\ Error er = "failed creating detector type " +:+ Quote t +:+ ": " +:+ Error cause
    /\ Unwrap er = Some cause.
Proof.
  intros Hall Hf Hc. unfold CreateResourceProvider, getDetectors.
  rewrite (getDetectors_loop_app f params cfgs pre (t :: post) [] ds e w1 Hall).
  rewrite (getDetectors_loop_failed f params cfgs t post _
             {| world := w1; trace := _ |} factory cause w2 Hf Hc).
  eexists. split; [cbn [trace]; rewrite map_app, <- app_assoc; reflexivity|].
  split; reflexivity.
Qed.


(** X24: the order of the request is the precedence of the merge: when the
    requested types are all constructed and their detectors all succeed,
    [Get] on the provider [CreateResourceProvider] returns holds, under every
    key, the value detected by the first requested type whose detector
    reports the key. *)
Theorem CreateResourceProvider_Get (f : ResourceProviderFactory)
    (params : component.ProcessorCreateParams) (timeout : time.Duration)
    (cfgs : ResourceDetectorConfig) (types : list DetectorType) (ctx : context.Context)
    (e : Env) (ds : list Detector) (rs : list pdata.Resource) (w1 w2 : World) :
  constructAll f params cfgs types (world e) = Some (ds, w1) ->
  detectAll (context.WithTimeout (clock w1) ctx timeout) ds w1 = Some (rs, w2) ->
  exists (p p1 : ResourceProvider) (e1 e2 : Env) (res : pdata.Resource),
    CreateResourceProvider f params timeout cfgs types e = (Ok p, e1)
    /\ Get ctx p e1 = (Some (Some res, None), p1, e2)
    /\ (forall k, pdata.Get k (pdata.Attributes res) = firstOf k rs)
    /\ world e2 = w2.
Proof.
  intros Hcons Hdet.
  assert (Hcreate : CreateResourceProvider f params timeout cfgs types e
                    = (Ok (NewResourceProvider (component.Logger params) timeout ds),
                       {| world := w1; trace := trace e ++ map EvCreate types |})).
  { apply CreateResourceProvider_success_aux; exact Hcons. }
  rewrite Hcreate. eexists. eexists. eexists. eexists. eexists.
  split; [reflexivity|]. rewrite Get_new. cbn [world].
  pose proof (detectResource_loop_app (context.WithTimeout (clock w1) ctx timeout) ds []
                pdata.NewResource
                (Info (component.Logger params) "began detecting resource information" []
                   {| world := w1; trace := trace e ++ map EvCreate types |}) rs w2 Hdet)
    as Hrun.
  rewrite app_nil_r in Hrun. rewrite Hrun. simpl detectResource_loop.
  split; [reflexivity|]. split; [|reflexivity].
  intros k. rewrite Get_mergeAll. reflexivity.
Qed.

End Provider.

Arguments world {World} _.
Arguments trace {World} _.
Arguments detectorName {World} _.
Arguments Detect {World} _ _ _.
Arguments fixedDetector {World} name step r.
Arguments fixedFactory {World DetectorConfig} step r _ _ _.
Arguments f_detectors {World DetectorConfig} _.
Arguments NewProviderFactory {World DetectorConfig} detectors.
Arguments CreateResourceProvider {World DetectorConfig} Quote f params timeout
  detectorConfigs detectorTypes e.
Arguments p_detectedResource {World} _.
Arguments NewResourceProvider {World} logger timeout detectors.
Arguments Get {World} clock ctx p e.
Arguments Gets {World} clock ctxs p e.

(** * Instances

    The theorems above at concrete detectors. The world is a counter that
    every call to a detector or to a constructor increments, and that the
    clock reads. *)

Lemma AttributesToMap_flattens_witness :
  let am :=
    [("flag", pdata.AttributeValueBOOL true);
     ("count", pdata.AttributeValueINT 7%Z);
     ("ratio", pdata.AttributeValueDOUBLE 0.5%float);
     ("host", pdata.AttributeValueSTRING "h1");
     ("labels", pdata.AttributeValueMAP [("zone", pdata.AttributeValueSTRING "z")]);
     ("ports", pdata.AttributeValueARRAY
                 [pdata.AttributeValueINT 80%Z; pdata.AttributeValueNULL])] in
  NoDup (pdata.keys am)
  /\ pdata.Get "ports" am
     = Some (pdata.AttributeValueARRAY [pdata.AttributeValueINT 80%Z; pdata.AttributeValueNULL])
  /\ AttributesToMap am !! "ports" = Some (PlainSlice [PlainInt64 80%Z; PlainNil])
  /\ AttributesToMap am !! "labels" = Some (PlainMap {[ "zone" := PlainString "z" ]})
  /\ AttributesToMap am !! "flag" = Some (PlainBool true)
  /\ AttributesToMap am !! "count" = Some (PlainInt64 7%Z)
  /\ AttributesToMap am !! "ratio" = Some (PlainFloat64 0.5%float)
  /\ AttributesToMap am !! "host" = Some (PlainString "h1").
Proof.
  intros am.
  assert (Hnd : NoDup (pdata.keys am)) by (apply (bool_decide_unpack _); vm_compute; exact I).
  pose proof (proj1 (proj2 (AttributesToMap_flattens am)) Hnd) as Hflat.
  split; [exact Hnd|]. split; [reflexivity|].
  split; [exact (Hflat "ports" _ eq_refl)|].
  split; [exact (Hflat "labels" _ eq_refl)|].
  split; [exact (Hflat "flag" _ eq_refl)|].
  split; [exact (Hflat "count" _ eq_refl)|].
  split; [exact (Hflat "ratio" _ eq_refl)|].
  exact (Hflat "host" _ eq_refl).
Defined.

Lemma MergeResource_override_witness :
  let to := intResource [("a", 1%Z)] in
  let from := intResource [("a", 2%Z); ("b", 2%Z)] in
  NoDup (pdata.keys (pdata.Attributes from))
  /\ pdata.Get "a" (pdata.Attributes from) = Some (pdata.AttributeValueINT 2%Z)
  /\ pdata.Get "a" (pdata.Attributes (MergeResource to from true))
     = Some (pdata.AttributeValueINT 2%Z).
Proof.
  intros to from.
  assert (Hnd : NoDup (pdata.keys (pdata.Attributes from)))
    by (apply (bool_decide_unpack _); vm_compute; exact I).
  split; [exact Hnd|]. split; [reflexivity|].
  exact (proj1 (MergeResource_override to from) Hnd "a" _ eq_refl).
Defined.

Lemma MergeResource_empty_source_witness :
  pdata.Len (pdata.Attributes pdata.NewResource) = 0%nat
  /\ MergeResource (intResource [("a", 1%Z)]) pdata.NewResource true = intResource [("a", 1%Z)].
Proof.
  split; [reflexivity|].
  exact (proj1 (MergeResource_empty_source (intResource [("a", 1%Z)]) pdata.NewResource true)
           eq_refl).
Defined.

Lemma MergeResource_frame_witness :
  let to := intResource [("a", 1%Z); ("c", 3%Z)] in
  let from := intResource [("a", 2%Z); ("b", 2%Z)] in
  ("c" ∉ pdata.keys (pdata.Attributes from))
  /\ ("c" ∈ pdata.keys (pdata.Attributes to))
  /\ pdata.Get "c" (pdata.Attributes (MergeResource to from true))
     = Some (pdata.AttributeValueINT 3%Z)
  /\ "c" ∈ pdata.keys (pdata.Attributes (MergeResource to from true)).
Proof.
  intros to from.
  assert (Hout : "c" ∉ pdata.keys (pdata.Attributes from))
    by (apply (bool_decide_unpack _); vm_compute; exact I).
  assert (Hin : "c" ∈ pdata.keys (pdata.Attributes to))
    by (apply (bool_decide_unpack _); vm_compute; exact I).
  split; [exact Hout|]. split; [exact Hin|].
  split.
  - exact (proj1 (proj1 (MergeResource_frame to from true "c") Hout)).
  - exact (proj2 (MergeResource_frame to from true "c") Hin).
Defined.

Lemma Get_aborts_on_failure_witness :
  let D1 := fixedDetector "D1" S (Ok (intResource [("a", 1%Z)])) in
  let D2 := fixedDetector "D2" S (Err (errorString "metadata endpoint unreachable")) in
  let D3 := fixedDetector "D3" S (Ok (intResource [("c", 3%Z)])) in
  let e := {| world := 0%nat; trace := [] |} in
  exists p1 e1,
    Get Z.of_nat context.Background (NewResourceProvider "lg" 5%Z [D1; D2; D3]) e
      = (Some (None, Some (errorString "metadata endpoint unreachable")), p1, e1)
    /\ world e1 = 2%nat
    /\ detectCalls (trace e1)
       = [("D1", {| context.Deadline := Some 5%Z |}); ("D2", {| context.Deadline := Some 5%Z |})].
Proof.
  intros D1 D2 D3 e.
  destruct (Get_aborts_on_failure nat Z.of_nat "lg" 5%Z D1 D2 D3 context.Background [] e
              (intResource [("a", 1%Z)]) (errorString "metadata endpoint unreachable")
              1%nat 2%nat eq_refl eq_refl) as (p1 & Hget & _ & _ & Hcalls).
  eexists p1, _. split; [exact Hget|]. split; [reflexivity | exact Hcalls].
Defined.

Lemma Get_insert_only_merge_witness :
  let D1 := fixedDetector "D1" S (Ok (intResource [("a", 1%Z)])) in
  let D2 := fixedDetector "D2" S (Ok (intResource [("a", 2%Z); ("b", 2%Z)])) in
  fst (fst (Get Z.of_nat context.Background (NewResourceProvider "lg" 5%Z [D1; D2])
              {| world := 0%nat; trace := [] |}))
  = Some (Some (intResource [("a", 1%Z); ("b", 2%Z)]), None).
Proof.
  intros D1 D2.
  exact (proj1 (Get_insert_only_merge nat Z.of_nat "lg" 5%Z D1 D2 context.Background
                  {| world := 0%nat; trace := [] |} 1%nat 2%nat eq_refl eq_refl)).
Defined.

Lemma CreateResourceProvider_unknown_type_witness :
  let dX := fixedDetector "X" S (Ok (intResource [("a", 1%Z)])) in
  let f := NewProviderFactory (DetectorConfig := unit) {[ "x" := fixedFactory S (Ok dX) ]} in
  f_detectors f !! "bogus" = None
  /\ f_detectors f !! "x" = Some (fixedFactory S (Ok dX))
  /\ CreateResourceProvider (fun s => s) f {| component.Logger := "lg" |} 5%Z
       (fun _ => tt) ["x"; "bogus"] {| world := 0%nat; trace := [] |}
     = (Err (errorString "invalid detector key: bogus"),
        {| world := 1%nat; trace := [EvCreate "x"] |}).
Proof.
  intros dX f.
  assert (Hbogus : f_detectors f !! "bogus" = None) by (vm_compute; reflexivity).
  assert (HX : f_detectors f !! "x" = Some (fixedFactory S (Ok dX)))
    by (vm_compute; reflexivity).
  split; [exact Hbogus|]. split; [exact HX|].
  exact (proj1 (CreateResourceProvider_unknown_type nat unit (fun s => s) f
                  {| component.Logger := "lg" |} 5%Z (fun _ => tt) "x" "bogus" []
                  (fixedFactory S (Ok dX)) dX 1%nat
                  {| world := 0%nat; trace := [] |} Hbogus HX eq_refl)).
Defined.

(** C4 as stated fails: "bogus" is not registered and "x" is, the call fails
    with the error that names "bogus", and yet the constructor of "x" was
    called, once. *)
Lemma CreateResourceProvider_constructs_before_unknown :
  let dX := fixedDetector "X" S (Ok (intResource [("a", 1%Z)])) in
  let f := NewProviderFactory (DetectorConfig := unit) {[ "x" := fixedFactory S (Ok dX) ]} in
  let out := CreateResourceProvider (fun s => s) f {| component.Logger := "lg" |} 5%Z
               (fun _ => tt) ["x"; "bogus"] {| world := 0%nat; trace := [] |} in
  f_detectors f !! "bogus" = None
  /\ is_Some (f_detectors f !! "x")
  /\ fst out = Err (errorString "invalid detector key: bogus")
  /\ createCalls (trace (snd out)) = ["x"]
  /\ ~ ("x" ∉ createCalls (trace (snd out))).
Proof.
  intros dX f out.
  split; [vm_compute; reflexivity|].
  split; [vm_compute; eexists; reflexivity|].
  split; [vm_compute; reflexivity|].
  split; [vm_compute; reflexivity|].
  intros Hnot. apply Hnot. vm_compute. apply list_elem_of_here.
Qed.

(** Three calls of [Get] on a provider over two detectors: each detector ran
    once (the counter is at 2), and the three calls returned the same pair. *)
Example Gets_thrice :
  let D1 := fixedDetector "D1" S (Ok (intResource [("a", 1%Z)])) in
  let D2 := fixedDetector "D2" S (Ok (intResource [("a", 2%Z); ("b", 2%Z)])) in
  let out := Gets Z.of_nat [context.Background; context.Background; context.Background]
               (NewResourceProvider "lg" 5%Z [D1; D2]) {| world := 0%nat; trace := [] |} in
  fst (fst out) = repeat (Some (Some (intResource [("a", 1%Z); ("b", 2%Z)]), None)) 3
  /\ world (snd out) = 2%nat
  /\ detectCalls (trace (snd out))
     = [("D1", {| context.Deadline := Some 5%Z |}); ("D2", {| context.Deadline := Some 5%Z |})].
Proof. vm_compute. repeat split. Qed.

(** ** Instances of the further properties *)

Lemma MergeResource_keeps_keys_unique_witness :
  let to := intResource [("a", 1%Z)] in
  let from := intResource [("a", 2%Z); ("b", 2%Z); ("a", 3%Z); ("b", 4%Z)] in
  NoDup (pdata.keys (pdata.Attributes to))
  /\ NoDup (pdata.keys (pdata.Attributes (MergeResource to from true)))
  /\ NoDup (pdata.keys (pdata.Attributes (MergeResource to from false))).
Proof.
  intros to from.
  assert (Hnd : NoDup (pdata.keys (pdata.Attributes to)))
    by (apply (bool_decide_unpack _); vm_compute; exact I).
  split; [exact Hnd|].
  split; apply MergeResource_keeps_keys_unique; exact Hnd.
Defined.

Lemma MergeResource_disjoint_witness :
  let to := intResource [("a", 1%Z)] in
  let from := intResource [("b", 2%Z); ("c", 3%Z)] in
  pdata.Attributes (MergeResource to from true) = pdata.Attributes to ++ pdata.Attributes from
  /\ MergeResource pdata.NewResource from true = from.
Proof.
  intros to from. apply MergeResource_disjoint.
  - apply (bool_decide_unpack _). vm_compute. exact I.
  - intros k Hk. apply (bool_decide_unpack _).
    apply elem_of_cons in Hk as [->|Hk]; [vm_compute; exact I|].
    apply elem_of_cons in Hk as [->|Hk]; [vm_compute; exact I|].
    apply elem_of_nil in Hk. contradiction.
Defined.

Lemma MergeResource_idempotent_witness :
  let to := intResource [("a", 1%Z)] in
  let from := intResource [("a", 2%Z); ("b", 2%Z)] in
  MergeResource (MergeResource to from true) from true = MergeResource to from true.
Proof.
  intros to from. apply MergeResource_idempotent.
  intros _. apply (bool_decide_unpack _). vm_compute. exact I.
Defined.

Lemma MergeResource_override_dual_witness :
  let to := intResource [("a", 1%Z); ("c", 3%Z)] in
  let from := intResource [("a", 2%Z); ("b", 2%Z)] in
  pdata.Get "a" (pdata.Attributes (MergeResource to from true))
  = pdata.Get "a" (pdata.Attributes (MergeResource from to false)).
Proof.
  intros to from. apply MergeResource_override_dual.
  apply (bool_decide_unpack _). vm_compute. exact I.
Defined.

Lemma AttributesToMap_size_witness :
  let am := [("a", pdata.AttributeValueINT 1%Z); ("b", pdata.AttributeValueBOOL true)] in
  NoDup (pdata.keys am) /\ size (AttributesToMap am) = 2%nat.
Proof.
  intros am.
  assert (Hnd : NoDup (pdata.keys am)) by (apply (bool_decide_unpack _); vm_compute; exact I).
  split; [exact Hnd|]. exact (proj2 (AttributesToMap_size am) Hnd).
Defined.

Lemma AttributesToMap_MergeResource_witness :
  let to := intResource [("a", 1%Z)] in
  let from := intResource [("a", 2%Z); ("b", 2%Z)] in
  AttributesToMap (pdata.Attributes (MergeResource to from false))
    = AttributesToMap (pdata.Attributes to) ∪ AttributesToMap (pdata.Attributes from)
  /\ AttributesToMap (pdata.Attributes (MergeResource to from true))
     = AttributesToMap (pdata.Attributes from) ∪ AttributesToMap (pdata.Attributes to).
Proof.
  intros to from. apply AttributesToMap_MergeResource;
    apply (bool_decide_unpack _); vm_compute; exact I.
Defined.

Lemma Get_all_succeed_witness :
  let D1 := fixedDetector "D1" S (Ok (intResource [("a", 1%Z)])) in
  let D2 := fixedDetector "D2" S (Ok (intResource [("a", 2%Z); ("b", 2%Z)])) in
  let D3 := fixedDetector "D3" S (Ok (intResource [("b", 3%Z); ("c", 3%Z)])) in
  exists p1 e1,
    Get Z.of_nat context.Background (NewResourceProvider "lg" 5%Z [D1; D2; D3])
      {| world := 0%nat; trace := [] |}
    = (Some (Some (intResource [("a", 1%Z); ("b", 2%Z); ("c", 3%Z)]), None), p1, e1)
    /\ world e1 = 3%nat.
Proof.
  intros D1 D2 D3.
  destruct (Get_all_succeed nat Z.of_nat "lg" 5%Z [D1; D2; D3] context.Background
              {| world := 0%nat; trace := [] |}
              [intResource [("a", 1%Z)]; intResource [("a", 2%Z); ("b", 2%Z)];
               intResource [("b", 3%Z); ("c", 3%Z)]] 3%nat eq_refl)
    as (p1 & e1 & Hget & _ & Hw & _).
  exists p1, e1. split; [exact Hget | exact Hw].
Defined.

Lemma Get_first_failure_witness :
  let D1 := fixedDetector "D1" S (Ok (intResource [("a", 1%Z)])) in
  let D2 := fixedDetector "D2" S (Ok (intResource [("b", 2%Z)])) in
  let D3 := fixedDetector "D3" S (Err (errorString "no metadata")) in
  let D4 := fixedDetector "D4" S (Ok (intResource [("d", 4%Z)])) in
  exists p1 e1,
    Get Z.of_nat context.Background (NewResourceProvider "lg" 5%Z ([D1; D2] ++ D3 :: [D4]))
      {| world := 0%nat; trace := [] |}
    = (Some (None, Some (errorString "no metadata")), p1, e1)
    /\ world e1 = 3%nat.
Proof.
  intros D1 D2 D3 D4.
  destruct (Get_first_failure nat Z.of_nat "lg" 5%Z [D1; D2] [D4] D3 context.Background
              {| world := 0%nat; trace := [] |}
              [intResource [("a", 1%Z)]; intResource [("b", 2%Z)]]
              (errorString "no metadata") 2%nat 3%nat eq_refl eq_refl)
    as (p1 & e1 & Hget & Hw & _).
  exists p1, e1. split; [exact Hget | exact Hw].
Defined.

Lemma Get_result_keys_unique_witness :
  NoDup (pdata.keys (pdata.Attributes (intResource [("a", 1%Z); ("b", 2%Z)]))).
Proof.
  eapply (Get_result_keys_unique nat Z.of_nat "lg" 5%Z
            [fixedDetector "D1" S (Ok (intResource [("a", 1%Z); ("a", 9%Z); ("b", 2%Z)]))]
            context.Background {| world := 0%nat; trace := [] |} _ _ None).
  reflexivity.
Defined.

Lemma CreateResourceProvider_rejects_unknown_witness :
  let dX := fixedDetector "X" S (Ok (intResource [("a", 1%Z)])) in
  let f := NewProviderFactory (DetectorConfig := unit) {[ "x" := fixedFactory S (Ok dX) ]} in
  exists er,
    fst (CreateResourceProvider (fun s => s) f {| component.Logger := "lg" |} 5%Z
           (fun _ => tt) ["x"; "x"; "bogus"; "x"] {| world := 0%nat; trace := [] |})
    = Err er.
Proof.
  intros dX f.
  apply (CreateResourceProvider_rejects_unknown nat unit (fun s => s) f
           {| component.Logger := "lg" |} 5%Z (fun _ => tt) ["x"; "x"; "bogus"; "x"] "bogus").
  - apply (bool_decide_unpack _). vm_compute. exact I.
  - vm_compute. reflexivity.
Defined.

Lemma CreateResourceProvider_first_unknown_witness :
  let dX := fixedDetector "X" S (Ok (intResource [("a", 1%Z)])) in
  let f := NewProviderFactory (DetectorConfig := unit) {[ "x" := fixedFactory S (Ok dX) ]} in
  CreateResourceProvider (fun s => s) f {| component.Logger := "lg" |} 5%Z
    (fun _ => tt) (["x"; "x"] ++ "bogus" :: ["x"]) {| world := 0%nat; trace := [] |}
  = (Err (errorString "invalid detector key: bogus"),
     {| world := 2%nat; trace := [EvCreate "x"; EvCreate "x"] |}).
Proof.
  intros dX f.
  apply (CreateResourceProvider_first_unknown nat unit (fun s => s) f
           {| component.Logger := "lg" |} 5%Z (fun _ => tt) ["x"; "x"] ["x"] "bogus"
           [dX; dX] 2%nat {| world := 0%nat; trace := [] |}).
  - vm_compute. reflexivity.
  - vm_compute. reflexivity.
Defined.

Lemma CreateResourceProvider_first_failure_witness :
  let dX := fixedDetector "X" S (Ok (intResource [("a", 1%Z)])) in
  let f := NewProviderFactory (DetectorConfig := unit)
             (<["y" := fixedFactory S (Err (errorString "no credentials"))]>
                {[ "x" := fixedFactory S (Ok dX) ]}) in
  exists er,
    CreateResourceProvider (fun s => "<" +:+ s +:+ ">") f {| component.Logger := "lg" |} 5%Z
      (fun _ => tt) (["x"] ++ "y" :: ["x"]) {| world := 0%nat; trace := [] |}
    = (Err er, {| world := 2%nat; trace := [EvCreate "x"; EvCreate "y"] |})
    /\ Error er = "failed creating detector type <y>: no credentials"
    /\ Unwrap er = Some (errorString "no credentials").
Proof.
  intros dX f.
  apply (CreateResourceProvider_first_failure nat unit (fun s => "<" +:+ s +:+ ">") f
           {| component.Logger := "lg" |} 5%Z (fun _ => tt) ["x"] ["x"] "y"
           (fixedFactory S (Err (errorString "no credentials"))) [dX]
           (errorString "no credentials") 1%nat 2%nat {| world := 0%nat; trace := [] |}).
  - vm_compute. reflexivity.
  - vm_compute. reflexivity.
  - reflexivity.
Defined.

Lemma CreateResourceProvider_Get_witness :
  let D1 := fixedDetector "env" S (Ok (intResource [("a", 1%Z)])) in
  let D2 := fixedDetector "system" S (Ok (intResource [("a", 2%Z); ("b", 2%Z)])) in
  let f := NewProviderFactory (DetectorConfig := unit)
             (<["system" := fixedFactory S (Ok D2)]> {[ "env" := fixedFactory S (Ok D1) ]}) in
  exists p p1 e1 e2 res,
    CreateResourceProvider (fun s => s) f {| component.Logger := "lg" |} 5%Z (fun _ => tt)
      ["env"; "system"] {| world := 0%nat; trace := [] |} = (Ok p, e1)
    /\ Get Z.of_nat context.Background p e1 = (Some (Some res, None), p1, e2)
    /\ pdata.Get "a" (pdata.Attributes res) = Some (pdata.AttributeValueINT 1%Z)
    /\ pdata.Get "b" (pdata.Attributes res) = Some (pdata.AttributeValueINT 2%Z)
    /\ world e2 = 4%nat.
Proof.
  intros D1 D2 f.
  destruct (CreateResourceProvider_Get nat Z.of_nat unit (fun s => s) f
              {| component.Logger := "lg" |} 5%Z (fun _ => tt) ["env"; "system"]
              context.Background {| world := 0%nat; trace := [] |} [D1; D2]
              [intResource [("a", 1%Z)]; intResource [("a", 2%Z); ("b", 2%Z)]] 2%nat 4%nat)
    as (p & p1 & e1 & e2 & res & Hcreate & Hget & Hfirst & Hw).
  - vm_compute. reflexivity.
  - reflexivity.
  - exists p, p1, e1, e2, res. split; [exact Hcreate|]. split; [exact Hget|].
    split; [rewrite Hfirst; reflexivity|]. split; [rewrite Hfirst; reflexivity | exact Hw].
Defined.

